(** * The DMV row pipeline of [main.py]

    A shallow embedding of [transform_address], [check_schema], [null_check]
    and [run], with the properties of the row pipeline proved over it.

    Conventions of the embedding:
    - a Python [str] is the list of its Unicode code points;
    - a Python [dict] is an association list in insertion order, the order in
      which its text representation lists the entries;
    - a function that can raise returns a [result]; a function that mutates
      the row also returns the row as it leaves it;
    - [json.loads] and [open] are library code: they are the two variables of
      the section that embeds [run];
    - the console is the list of the lines printed so far; the parts of a
      line produced by the interpreter's own [str()] of an exception or of the
      row stay symbolic fragments. *)

From Stdlib Require Import String Ascii NArith ZArith PeanoNat Bool Lia List.
From Stdlib Require Import Floats.SpecFloat.
From Stdlib Require DecimalString DecimalNat.
Import ListNotations.

Local Open Scope list_scope.

(* ================================================================= *)
(** ** Python strings *)

Definition char := N.
Definition pystr := list char.

(** A source literal, character by character. *)
Definition py (s : string) : pystr :=
  map N_of_ascii (list_ascii_of_string s).

Arguments py s%_string.

Definition char_eqb (a b : char) : bool := N.eqb a b.

Fixpoint pystr_eqb (a b : pystr) : bool :=
  match a, b with
  | [], [] => true
  | x :: a', y :: b' => char_eqb x y && pystr_eqb a' b'
  | _, _ => false
  end.

Definition NL : char := 10%N.

(** [str.isspace] on one code point: the white space that [str.strip()]
    removes when it is called without an argument. *)
Definition is_space (c : char) : bool :=
  (((9 <=? c) && (c <=? 13)) || ((28 <=? c) && (c <=? 32))
   || (c =? 133) || (c =? 160) || (c =? 5760)
   || ((8192 <=? c) && (c <=? 8202))
   || (c =? 8232) || (c =? 8233) || (c =? 8239) || (c =? 8287)
   || (c =? 12288))%N.

Fixpoint lstrip (s : pystr) : pystr :=
  match s with
  | c :: s' => if is_space c then lstrip s' else s
  | [] => []
  end.

Definition rstrip (s : pystr) : pystr := List.rev (lstrip (List.rev s)).

(** [s.strip()] *)
Definition strip (s : pystr) : pystr := rstrip (lstrip s).

(** [s.replace(old, new)] for a one-character [old]. *)
Fixpoint replace_char (old : char) (new : pystr) (s : pystr) : pystr :=
  match s with
  | c :: s' =>
      if char_eqb c old then new ++ replace_char old new s'
      else c :: replace_char old new s'
  | [] => []
  end.

Fixpoint starts_with (p s : pystr) : bool :=
  match p, s with
  | [], _ => true
  | x :: p', y :: s' => char_eqb x y && starts_with p' s'
  | _ :: _, [] => false
  end.

(** [p in s] for two strings: [p] occurs in [s]. *)
Fixpoint occurs_in (p s : pystr) : bool :=
  starts_with p s ||
  match s with
  | _ :: s' => occurs_in p s'
  | [] => false
  end.

(** [str(n)] of a non-negative integer. *)
Definition decimal (n : nat) : pystr :=
  py (DecimalString.NilZero.string_of_uint (Nat.to_uint n)).

(** [f"{n:04d}"] of a non-negative integer: at least four digits, zeros on
    the left. *)
Definition fmt04 (n : nat) : pystr :=
  let d := decimal n in
  repeat (N_of_ascii "0"%char) (4 - length d) ++ d.

(* ================================================================= *)
(** ** Python values, as [json.loads] builds them *)

Unset Elimination Schemes.

Inductive pyvalue : Type :=
| PNone
| PBool (b : bool)
| PInt (z : Z)
| PFloat (f : spec_float)
| PStr (s : pystr)
| PList (items : list pyvalue)
| PDict (entries : list (pystr * pyvalue)).

Set Elimination Schemes.

Definition pydict := list (pystr * pyvalue).

(** ** Dictionaries *)

Module Dict.

(** [d.get(k)] *)
Fixpoint get (k : pystr) (d : pydict) : option pyvalue :=
  match d with
  | (k', v) :: d' => if pystr_eqb k k' then Some v else get k d'
  | [] => None
  end.

(** [k in d] *)
Definition mem (k : pystr) (d : pydict) : bool :=
  match get k d with Some _ => true | None => false end.

(** [d[k] = v]: an existing key keeps its place, a new one goes last. *)
Fixpoint set (k : pystr) (v : pyvalue) (d : pydict) : pydict :=
  match d with
  | (k', v') :: d' =>
      if pystr_eqb k k' then (k', v) :: d' else (k', v') :: set k v d'
  | [] => [(k, v)]
  end.

(** [del d[k]] for a key that is present. *)
Definition del (k : pystr) (d : pydict) : pydict :=
  filter (fun e => negb (pystr_eqb k (fst e))) d.

End Dict.

(* ================================================================= *)
(** ** Exceptions

    Every constructor stands for a subclass of [Exception]. [KeyError] and
    [ValueError] carry the argument they were built with; [TypeError] is the
    interpreter's, raised on an operand of the wrong type; [LibraryError] is
    whatever [json.loads], [open] or reading the file raises, with its class
    name and its text. *)

Inductive exn : Type :=
| KeyError (arg : pystr)
| ValueError (msg : pystr)
| TypeError
| UnboundLocalError (name : pystr)
| LibraryError (class_name msg : pystr).

Inductive result (A : Type) : Type :=
| Ok (a : A)
| Raise (e : exn).

Arguments Ok {A} a.
Arguments Raise {A} e.

(** [row[key]] *)
Definition subscript (row : pyvalue) (key : pystr) : result pyvalue :=
  match row with
  | PDict d =>
      match Dict.get key d with
      | Some v => Ok v
      | None => Raise (KeyError key)
      end
  | _ => Raise TypeError
  end.

(** [key in row], with [key] a string *)
Definition contains (row : pyvalue) (key : pystr) : result bool :=
  match row with
  | PDict d => Ok (Dict.mem key d)
  | PStr s => Ok (occurs_in key s)
  | PList items =>
      Ok (existsb (fun v => match v with
                            | PStr s => pystr_eqb s key
                            | _ => false
                            end) items)
  | _ => Raise TypeError
  end.

(* ================================================================= *)
(** ** The regular expressions [transform_address] needs

    [re.compile(...).match(s)]: a backtracking matcher, anchored at the start
    of [s] and free at its end, that records the span of every named group.
    Only the constructs of [address_regex] are embedded. *)

Module Re.

Inductive set_item : Type :=
| One (c : char)                (* a character *)
| Range (lo hi : char).         (* lo-hi *)

Definition charset := list set_item.

Definition in_item (c : char) (i : set_item) : bool :=
  match i with
  | One x => char_eqb c x
  | Range lo hi => (lo <=? c)%N && (c <=? hi)%N
  end.

Definition in_set (cs : charset) (c : char) : bool :=
  existsb (in_item c) cs.

Inductive regex : Type :=
| Chr (c : char)                      (* a literal character *)
| OneOrMore (cs : charset)            (* [..]+, greedy *)
| Exactly (n : nat) (cs : charset)    (* [..]{n} *)
| Named (name : pystr) (r : regex)    (* (?P<name>..) *)
| Cat (r1 r2 : regex).

(** The spans of the groups matched so far: name, start, end. *)
Definition spans := list (pystr * (nat * nat)).

Section Matcher.

Context {A : Type}.

(** What is left of the pattern, run on what is left of the string, at a
    position, with the groups closed so far. *)
Definition cont := pystr -> nat -> spans -> option A.

(** [[cs]+]: the longest run first, then shorter ones while the rest of
    the pattern fails. *)
Fixpoint greedy (cs : charset) (s : pystr) (pos : nat) (g : spans)
         (k : cont) : option A :=
  match s with
  | c :: s' =>
      if in_set cs c then
        match greedy cs s' (S pos) g k with
        | Some a => Some a
        | None => k s' (S pos) g
        end
      else None
  | [] => None
  end.

(** [[cs]{n}] *)
Fixpoint exactly (n : nat) (cs : charset) (s : pystr) (pos : nat)
         (g : spans) (k : cont) : option A :=
  match n with
  | O => k s pos g
  | S n' =>
      match s with
      | c :: s' => if in_set cs c then exactly n' cs s' (S pos) g k else None
      | [] => None
      end
  end.

Fixpoint run (r : regex) (s : pystr) (pos : nat) (g : spans) (k : cont)
  : option A :=
  match r with
  | Chr c =>
      match s with
      | x :: s' => if char_eqb x c then k s' (S pos) g else None
      | [] => None
      end
  | OneOrMore cs => greedy cs s pos g k
  | Exactly n cs => exactly n cs s pos g k
  | Named name r' =>
      run r' s pos g (fun s' pos' g' => k s' pos' ((name, (pos, pos')) :: g'))
  | Cat r1 r2 =>
      run r1 s pos g (fun s' pos' g' => run r2 s' pos' g' k)
  end.

End Matcher.

(** A match object: the subject string and the spans of its groups. *)
Record match_object : Type := MatchObject {
  subject : pystr;
  group_spans : spans
}.

(** [pattern.match(s)] *)
Definition match_ (r : regex) (s : pystr) : option match_object :=
  run r s 0 [] (fun _ _ g => Some (MatchObject s g)).

Fixpoint span_of (name : pystr) (g : spans) : option (nat * nat) :=
  match g with
  | (n, sp) :: g' => if pystr_eqb name n then Some sp else span_of name g'
  | [] => None
  end.

(** [m.group(name)], for a group of the pattern that took part in the
    match; the empty string stands in for a name the match does not have. *)
Definition group (m : match_object) (name : pystr) : pystr :=
  match span_of name (group_spans m) with
  | Some (i, j) => firstn (j - i) (skipn i (subject m))
  | None => []
  end.

End Re.

(* ================================================================= *)
(** ** [transform_address] *)

Definition lower : Re.set_item := Re.Range (N_of_ascii "a") (N_of_ascii "z").
Definition upper : Re.set_item := Re.Range (N_of_ascii "A") (N_of_ascii "Z").
Definition digit : Re.set_item := Re.Range (N_of_ascii "0") (N_of_ascii "9").

(** [[a-zA-Z0-9 .]] *)
Definition street_set : Re.charset :=
  [lower; upper; digit; Re.One (N_of_ascii " "); Re.One (N_of_ascii ".")].
(** [[a-zA-Z0-9 ]] *)
Definition city_set : Re.charset :=
  [lower; upper; digit; Re.One (N_of_ascii " ")].
(** [[A-Z]] *)
Definition state_set : Re.charset := [upper].
(** [[0-9]] *)
Definition zip_set : Re.charset := [digit].

(** [(?P<street_address>[a-zA-Z0-9 .]+)\n(?P<city>[a-zA-Z0-9 ]+), (?P<state>[A-Z]{2}) (?P<zip>[0-9]{5})] *)
Definition address_regex : Re.regex :=
  Re.Cat (Re.Named (py "street_address") (Re.OneOrMore street_set))
  (Re.Cat (Re.Chr NL)
  (Re.Cat (Re.Named (py "city") (Re.OneOrMore city_set))
  (Re.Cat (Re.Chr (N_of_ascii ","))
  (Re.Cat (Re.Chr (N_of_ascii " "))
  (Re.Cat (Re.Named (py "state") (Re.Exactly 2 state_set))
  (Re.Cat (Re.Chr (N_of_ascii " "))
          (Re.Named (py "zip") (Re.Exactly 5 zip_set)))))))).

(** [transform_address(row)]: what it returns or raises, and the row as it
    leaves it. A row that is not a dictionary cannot be indexed by a string,
    and [pattern.match] refuses an argument that is not a string. *)
Definition transform_address (row : pyvalue) : result bool * pyvalue :=
  match row with
  | PDict d =>
      match Dict.get (py "registered_address") d with
      | None => (Raise (KeyError (py "registered_address")), row)
      | Some (PStr a) =>
          match Re.match_ address_regex a with
          | Some result =>
              let d := Dict.set (py "street_address")
                         (PStr (Re.group result (py "street_address"))) d in
              let d := Dict.set (py "city")
                         (PStr (Re.group result (py "city"))) d in
              let d := Dict.set (py "state")
                         (PStr (Re.group result (py "state"))) d in
              let d := Dict.set (py "zip")
                         (PStr (Re.group result (py "zip"))) d in
              let d := Dict.del (py "registered_address") d in
              (Ok true, PDict d)
          | None =>
              let address := replace_char NL (py ", ") (strip a) in
              (Raise (ValueError (py "Unknown address format: " ++ address)),
               row)
          end
      | Some _ => (Raise TypeError, row)
      end
  | _ => (Raise TypeError, row)
  end.

(* ================================================================= *)
(** ** [check_schema] and [null_check] *)

Definition VALID_FIELDS : list pystr :=
  [py "license_plate"; py "make_model"; py "year"; py "registered_name";
   py "registered_address"; py "registered_date"].

Fixpoint check_schema (row : pyvalue) (required_fields : list pystr)
  : result bool :=
  match required_fields with
  | field :: rest =>
      match contains row field with
      | Raise e => Raise e
      | Ok false => Raise (KeyError (py "Missing required field: " ++ field))
      | Ok true => check_schema row rest
      end
  | [] => Ok true
  end.

Fixpoint null_check (row : pyvalue) (required_fields : list pystr)
  : result bool :=
  match required_fields with
  | field :: rest =>
      match subscript row field with
      | Raise e => Raise e
      | Ok PNone => Raise (ValueError (field ++ py " cannot be Null."))
      | Ok _ => null_check row rest
      end
  | [] => Ok true
  end.

(* ================================================================= *)
(** ** [run] *)

(** One printed line: the literal text of the f-string, and the two parts
    the interpreter formats itself, [str(err)] and the row. *)
Inductive fragment : Type :=
| Text (s : pystr)
| StrOf (e : exn)
| Format (v : pyvalue).

Definition line := list fragment.

(** A text file opened for reading: the lines it yields, and the error that
    ends the reading when it does not end at the end of the file. *)
Record text_file : Type := TextFile {
  file_lines : list pystr;
  read_error : option exn
}.

(** The local variables of [run] and the console. [row] is unbound until its
    first assignment. *)
Record frame : Type := Frame {
  line_num : nat;
  ok_count : nat;
  reject_count : nat;
  row : option pyvalue;
  stdout : list line
}.

Definition with_row (st : frame) (v : pyvalue) : frame :=
  Frame (line_num st) (ok_count st) (reject_count st) (Some v) (stdout st).

Definition print (st : frame) (l : line) : frame :=
  Frame (line_num st) (ok_count st) (reject_count st) (row st)
        (stdout st ++ [l]).

Definition ok_line (n : nat) (v : pyvalue) : line :=
  [Text (py "[" ++ fmt04 n ++ py " [OK]: "); Format v].

Definition error_line (n : nat) (err : exn) (v : pyvalue) : line :=
  [Text (py "[" ++ fmt04 n ++ py "][ERROR:] "); StrOf err;
   Text (py ", [DATA]: "); Format v].

Definition read_line (n : nat) : line :=
  [Text (py "Read " ++ decimal n ++ py " rows")].

Definition tally_line (ok rejected : nat) : line :=
  [Text (py "OK rows: " ++ fmt04 ok ++ py ", Rejected rows: "
         ++ fmt04 rejected)].

Section Run.

(** [json.loads] *)
Variable json_loads : pystr -> result pyvalue.
(** [open(file_name, "r")] *)
Variable open_ : pystr -> result text_file.

Variable print_lines : bool.

(** The [try] suite of the loop. *)
Definition try_suite (st : frame) (ln : pystr) : result unit * frame :=
  match json_loads (strip ln) with
  | Raise e => (Raise e, st)
  | Ok v =>
      let st := with_row st v in
      match check_schema v VALID_FIELDS with
      | Raise e => (Raise e, st)
      | Ok _ =>
          match null_check v VALID_FIELDS with
          | Raise e => (Raise e, st)
          | Ok _ =>
              let (r, v') := transform_address v in
              let st := with_row st v' in
              match r with
              | Raise e => (Raise e, st)
              | Ok _ =>
                  let st :=
                    if print_lines then print st (ok_line (line_num st) v')
                    else st in
                  (Ok tt,
                   Frame (line_num st) (ok_count st + 1) (reject_count st)
                         (row st) (stdout st))
              end
          end
      end
  end.

(** The [except Exception as err] suite: formatting the line reads [row]. *)
Definition except_suite (err : exn) (st : frame) : result unit * frame :=
  match row st with
  | None => (Raise (UnboundLocalError (py "row")), st)
  | Some v =>
      let st := print st (error_line (line_num st) err v) in
      (Ok tt,
       Frame (line_num st) (ok_count st) (reject_count st + 1)
             (row st) (stdout st))
  end.

(** The [finally] suite. *)
Definition finally_suite (st : frame) : frame :=
  Frame (line_num st + 1) (ok_count st) (reject_count st) (row st)
        (stdout st).

(** One turn of the loop. *)
Definition iteration (st : frame) (ln : pystr) : result unit * frame :=
  let (r, st) := try_suite st ln in
  let (r, st) :=
    match r with
    | Ok _ => (Ok tt, st)
    | Raise err => except_suite err st
    end in
  (r, finally_suite st).

(** [for line in json_file: ...]; an exception that leaves a turn leaves
    the loop. *)
Fixpoint for_lines (lines : list pystr) (st : frame) : result unit * frame :=
  match lines with
  | [] => (Ok tt, st)
  | ln :: rest =>
      match iteration st ln with
      | (Ok _, st') => for_lines rest st'
      | (Raise e, st') => (Raise e, st')
      end
  end.

Definition initial : frame := Frame 1 0 0 None [].

(** [run(file_name, print_lines)]: how it ends, and the console. *)
Definition run (file_name : pystr) : result unit * list line :=
  match open_ file_name with
  | Raise e => (Raise e, [])
  | Ok json_file =>
      match for_lines (file_lines json_file) initial with
      | (Raise e, st) => (Raise e, stdout st)
      | (Ok _, st) =>
          match read_error json_file with
          | Some e => (Raise e, stdout st)
          | None =>
              let st := print st (read_line (line_num st - 1)) in
              let st := print st (tally_line (ok_count st) (reject_count st)) in
              (Ok tt, stdout st)
          end
      end
  end.

(** The call at the end of the module. *)
Definition file_path : pystr := py "./data/vehicles_complex.json".

End Run.

Definition main (json_loads : pystr -> result pyvalue)
    (open_ : pystr -> result text_file) : result unit * list line :=
  run json_loads open_ false file_path.

(* ================================================================= *)
(** ** The two-line address, in the words of the specification

    One line of street address (letters, digits, spaces, periods), a line
    break, then the city (letters, digits, spaces), a comma and a space, a
    state code of two uppercase letters, a space, and a postal code of five
    digits. *)

Definition uppercase_letter (c : char) : bool :=
  (N_of_ascii "A" <=? c)%N && (c <=? N_of_ascii "Z")%N.

Definition lowercase_letter (c : char) : bool :=
  (N_of_ascii "a" <=? c)%N && (c <=? N_of_ascii "z")%N.

Definition letter (c : char) : bool :=
  lowercase_letter c || uppercase_letter c.

Definition decimal_digit (c : char) : bool :=
  (N_of_ascii "0" <=? c)%N && (c <=? N_of_ascii "9")%N.

Definition street_char (c : char) : bool :=
  letter c || decimal_digit c || char_eqb c (N_of_ascii " ")
  || char_eqb c (N_of_ascii ".").

Definition city_char (c : char) : bool :=
  letter c || decimal_digit c || char_eqb c (N_of_ascii " ").

Record address_parts (street city state zip : pystr) : Prop := AddressParts {
  street_nonempty : street <> [];
  street_chars : forallb street_char street = true;
  city_nonempty : city <> [];
  city_chars : forallb city_char city = true;
  state_length : length state = 2;
  state_chars : forallb uppercase_letter state = true;
  zip_length : length zip = 5;
  zip_chars : forallb decimal_digit zip = true
}.

(** The text of an address with these parts, and whatever follows it. *)
Definition two_line (street city state zip trailing : pystr) : pystr :=
  street ++ NL :: city ++ py ", " ++ state ++ py " " ++ zip ++ trailing.

(** The first field of [fields] that the predicate picks, with the fields
    declared before it. *)
Fixpoint first_field (p : pystr -> bool) (fields : list pystr)
  : option pystr :=
  match fields with
  | f :: rest => if p f then Some f else first_field p rest
  | [] => None
  end.

(** The longest prefix of [s] inside a character set, and the rest. *)
Fixpoint span (cs : Re.charset) (s : pystr) : pystr * pystr :=
  match s with
  | c :: s' =>
      if Re.in_set cs c then let (a, r) := span cs s' in (c :: a, r)
      else ([], s)
  | [] => ([], [])
  end.

(** [address_regex] read from left to right without backtracking: the
    four parts and what follows them. *)
Definition parse_address (s : pystr)
  : option (pystr * pystr * pystr * pystr * pystr) :=
  let (street, r1) := span street_set s in
  match street, r1 with
  | _ :: _, c :: r2 =>
      if char_eqb c NL then
        let (city, r3) := span city_set r2 in
        match city, r3 with
        | _ :: _, c1 :: c2 :: r4 =>
            if char_eqb c1 (N_of_ascii ",") && char_eqb c2 (N_of_ascii " ")
               && (2 <=? length r4)
               && forallb (Re.in_set state_set) (firstn 2 r4)
            then
              match skipn 2 r4 with
              | c3 :: r5 =>
                  if char_eqb c3 (N_of_ascii " ") && (5 <=? length r5)
                     && forallb (Re.in_set zip_set) (firstn 5 r5)
                  then Some (street, city, firstn 2 r4, firstn 5 r5,
                             skipn 5 r5)
                  else None
              | [] => None
              end
            else None
        | _, _ => None
        end
      else None
  | _, _ => None
  end.

(** The spans [address_regex] records for parts of these lengths. *)
Definition address_spans (street city : pystr) : Re.spans :=
  let a := length street in
  let b := a + 1 + length city in
  [(py "zip", (b + 2 + 2 + 1, b + 2 + 2 + 1 + 5));
   (py "state", (b + 2, b + 2 + 2));
   (py "city", (a + 1, b));
   (py "street_address", (0, a))].

(** The same keys, every value replaced by [None]. *)
Definition nulled (d : pydict) : pydict :=
  map (fun e => (fst e, PNone)) d.

(** [s] with every line break replaced by a comma and a space. *)
Definition breaks_to_commas (s : pystr) : pystr :=
  flat_map (fun c => if char_eqb c NL then py ", " else [c]) s.

(** [core] is [s] without its leading and trailing white space. *)
Definition trimmed (s core : pystr) : Prop :=
  exists lead trail,
    s = lead ++ core ++ trail /\
    forallb is_space lead = true /\ forallb is_space trail = true /\
    (forall c r, core = c :: r -> is_space c = false) /\
    (forall c r, core = r ++ [c] -> is_space c = false).

(** A required field that [null_check] stops at. *)
Definition null_or_absent (d : pydict) (f : pystr) : bool :=
  match Dict.get f d with
  | Some PNone | None => true
  | Some _ => false
  end.

(** The row after a match: the four parts set, the address removed. *)
Definition with_address_parts (street city state zip : pystr) (d : pydict)
  : pydict :=
  Dict.del (py "registered_address")
    (Dict.set (py "zip") (PStr zip)
      (Dict.set (py "state") (PStr state)
        (Dict.set (py "city") (PStr city)
          (Dict.set (py "street_address") (PStr street) d)))).

(** Every required field is a key of [d] with a value that is not [None]. *)
Definition all_present_non_null (d : pydict) : Prop :=
  forall f, In f VALID_FIELDS ->
            exists v, Dict.get f d = Some v /\ v <> PNone.

(** ** Sample rows: the scenarios of the specification *)

Module Sample.

Definition address : pystr := py "123 Main St" ++ NL :: py "Springfield, IL 62704".

Definition record_with (a : pyvalue) : pydict :=
  [(py "license_plate", PStr (py "ABC123"));
   (py "make_model", PStr (py "Ford Focus"));
   (py "year", PInt 2020);
   (py "registered_name", PStr (py "Jane Doe"));
   (py "registered_address", a);
   (py "registered_date", PStr (py "2023-01-01"))].

(** Scenario 1 *)
Definition record : pydict := record_with (PStr address).
(** Scenario 2 *)
Definition record_null_address : pydict := record_with PNone.
(** Scenario 3 *)
Definition record_without_year : pydict :=
  Dict.del (py "year") record.
(** Scenario 4 *)
Definition one_line_address : pystr := py "123 Main St, Springfield, IL 62704".
Definition record_one_line : pydict := record_with (PStr one_line_address).

(** A decoder that yields the same value for every line, and one that
    refuses every line, as [json.loads] refuses a line that is not JSON. *)
Definition loads_const (v : pyvalue) : pystr -> result pyvalue :=
  fun _ => Ok v.
Definition decode_error : exn :=
  LibraryError (py "JSONDecodeError")
               (py "Expecting value: line 1 column 1 (char 0)").
Definition loads_fail : pystr -> result pyvalue :=
  fun _ => Raise decode_error.

(** A file system that holds one file with these lines, under any name. *)
Definition open_lines (lines : list pystr) : pystr -> result text_file :=
  fun _ => Ok (TextFile lines None).

End Sample.

(** ** Reading a printed number back

    [int(s)] on a string of decimal digits. *)

(** The value of a decimal digit. *)
Definition digit_value (c : char) : option nat :=
  if decimal_digit c then Some (N.to_nat (c - N_of_ascii "0")) else None.

Fixpoint parse_digits (s : pystr) (acc : nat) : option nat :=
  match s with
  | c :: s' =>
      match digit_value c with
      | Some d => parse_digits s' (10 * acc + d)
      | None => None
      end
  | [] => Some acc
  end.

Definition parse_decimal (s : pystr) : option nat :=
  match s with
  | [] => None
  | _ => parse_digits s 0
  end.


(** The four keys [transform_address] sets. *)
Definition structured_keys : list pystr :=
  [py "street_address"; py "city"; py "state"; py "zip"].

(** A line that decodes to a record with the six required fields, none of
    them null, and a two-line address. *)
Definition valid_line (json_loads : pystr -> result pyvalue) (ln : pystr)
  : Prop :=
  exists d street city state zip trailing,
    json_loads (strip ln) = Ok (PDict d) /\
    all_present_non_null d /\
    Dict.get (py "registered_address") d
      = Some (PStr (two_line street city state zip trailing)) /\
    address_parts street city state zip.


(* ================================================================= *)
(** * Properties *)

(** ** Strings and dictionaries *)

Lemma pystr_eqb_eq (a b : pystr) : pystr_eqb a b = true <-> a = b.
Proof.
  revert b. induction a as [|x a IH]; intros [|y b]; simpl;
    try (split; [discriminate | congruence]); try tauto.
  unfold char_eqb. rewrite andb_true_iff, N.eqb_eq, IH.
  split; [intros [-> ->]; reflexivity | intros [= -> ->]; auto].
Qed.

Lemma pystr_eqb_refl (a : pystr) : pystr_eqb a a = true.
Proof. apply pystr_eqb_eq. reflexivity. Qed.

Lemma pystr_eqb_neq (a b : pystr) : a <> b -> pystr_eqb a b = false.
Proof.
  intros H. destruct (pystr_eqb a b) eqn:E; [|reflexivity].
  apply pystr_eqb_eq in E. contradiction.
Qed.

Module DictFacts.

Lemma get_set_same k v d : Dict.get k (Dict.set k v d) = Some v.
Proof.
  induction d as [|[k' v'] d IH]; simpl.
  - rewrite pystr_eqb_refl. reflexivity.
  - destruct (pystr_eqb k k') eqn:E; simpl; rewrite E; auto.
Qed.

Lemma get_set_other k k' v d :
  pystr_eqb k k' = false -> Dict.get k (Dict.set k' v d) = Dict.get k d.
Proof.
  intros Hk. induction d as [|[k2 v2] d IH]; simpl.
  - rewrite Hk. reflexivity.
  - destruct (pystr_eqb k' k2) eqn:E; simpl.
    + apply pystr_eqb_eq in E. subst k2. rewrite Hk. reflexivity.
    + rewrite IH. reflexivity.
Qed.

Lemma get_del_same k d : Dict.get k (Dict.del k d) = None.
Proof.
  induction d as [|[k' v'] d IH]; simpl; [reflexivity|].
  destruct (pystr_eqb k k') eqn:E; simpl; [assumption|].
  rewrite E. assumption.
Qed.

Lemma get_del_other k k' d :
  pystr_eqb k k' = false -> Dict.get k (Dict.del k' d) = Dict.get k d.
Proof.
  intros Hk. induction d as [|[k2 v2] d IH]; simpl; [reflexivity|].
  destruct (pystr_eqb k' k2) eqn:E; simpl.
  - apply pystr_eqb_eq in E. subst k2. rewrite Hk. assumption.
  - rewrite IH. reflexivity.
Qed.

Lemma mem_del_same k d : Dict.mem k (Dict.del k d) = false.
Proof. unfold Dict.mem. rewrite get_del_same. reflexivity. Qed.

Lemma del_set_same k v d : Dict.del k (Dict.set k v d) = Dict.del k d.
Proof.
  induction d as [|[k' v'] d IH]; simpl.
  - rewrite pystr_eqb_refl. reflexivity.
  - destruct (pystr_eqb k k') eqn:E; simpl; rewrite E; simpl;
      [reflexivity | rewrite IH; reflexivity].
Qed.

Lemma del_set_other k k' v d :
  pystr_eqb k k' = false ->
  Dict.del k (Dict.set k' v d) = Dict.set k' v (Dict.del k d).
Proof.
  intros Hk. induction d as [|[k2 v2] d IH]; simpl.
  - rewrite Hk. reflexivity.
  - destruct (pystr_eqb k' k2) eqn:E; simpl.
    + apply pystr_eqb_eq in E. subst k2. rewrite Hk. simpl.
      rewrite pystr_eqb_refl. reflexivity.
    + destruct (pystr_eqb k k2); simpl; [exact IH|].
      rewrite E, IH. reflexivity.
Qed.

End DictFacts.

(** ** The matcher *)

Module ReFacts.

Import Re.

Lemma greedy_span {A} (cs : charset) (k : @cont A) :
  (forall c s p g, in_set cs c = true -> k (c :: s) p g = None) ->
  forall s pos g,
    greedy cs s pos g k =
    match span cs s with
    | ([], _) => None
    | (a, r) => k r (pos + length a) g
    end.
Proof.
  intros Hk. induction s as [|c s IH]; intros pos g; simpl; [reflexivity|].
  destruct (in_set cs c) eqn:Hc; [|reflexivity].
  rewrite IH. destruct (span cs s) as [a r] eqn:Hs.
  destruct a as [|x a].
  - simpl. replace (pos + 1) with (S pos) by lia.
    destruct s as [|y s]; simpl in Hs.
    + injection Hs as <-. reflexivity.
    + destruct (in_set cs y); [destruct (span cs s); discriminate|].
      injection Hs as <-. reflexivity.
  - simpl length. replace (pos + S (S (length a))) with (S pos + S (length a)) by lia.
    destruct (k r (S pos + S (length a)) g) eqn:Hr; [reflexivity|].
    destruct s as [|y s]; simpl in Hs; [discriminate|].
    destruct (in_set cs y) eqn:Hy.
    + apply Hk. assumption.
    + discriminate.
Qed.

Lemma exactly_firstn {A} (cs : charset) (k : @cont A) n :
  forall s pos g,
    exactly n cs s pos g k =
    if (n <=? length s) && forallb (in_set cs) (firstn n s)
    then k (skipn n s) (pos + n) g else None.
Proof.
  induction n as [|n IH]; intros s pos g; simpl.
  - rewrite Nat.add_0_r. reflexivity.
  - destruct s as [|c s]; simpl; [reflexivity|].
    destruct (in_set cs c); simpl.
    + rewrite IH. replace (S pos + n) with (pos + S n) by lia. reflexivity.
    + rewrite andb_false_r. reflexivity.
Qed.

End ReFacts.

(** ** [address_regex] against the two-line address *)

Module AddressFacts.

Import Re ReFacts.

Lemma match_parse s :
  Re.match_ address_regex s =
  match parse_address s with
  | Some (street, city, _, _, _) =>
      Some (MatchObject s (address_spans street city))
  | None => None
  end.
Proof.
  unfold match_, address_regex, parse_address. cbn [run].
  rewrite greedy_span.
  2:{ intros c s' p g Hc. destruct (char_eqb c NL) eqn:E; [|reflexivity].
      apply N.eqb_eq in E. subst c. discriminate. }
  destruct (span street_set s) as [street r1].
  destruct street as [|x street]; [reflexivity|].
  destruct r1 as [|c r2]; [reflexivity|].
  destruct (char_eqb c NL); [|reflexivity].
  rewrite greedy_span.
  2:{ intros c' s' p g Hc. destruct (char_eqb c' (N_of_ascii ",")) eqn:E; [|reflexivity].
      apply N.eqb_eq in E. subst c'. discriminate. }
  destruct (span city_set r2) as [city r3].
  destruct city as [|y city]; [reflexivity|].
  destruct r3 as [|c1 r3]; [reflexivity|].
  destruct (char_eqb c1 (N_of_ascii ",")); [|destruct r3; reflexivity].
  destruct r3 as [|c2 r4]; [reflexivity|].
  destruct (char_eqb c2 (N_of_ascii " ")); [|reflexivity].
  rewrite exactly_firstn. cbn [andb].
  destruct ((2 <=? length r4) && forallb (in_set state_set) (firstn 2 r4)); [|reflexivity].
  destruct (skipn 2 r4) as [|c3 r5]; [reflexivity|].
  destruct (char_eqb c3 (N_of_ascii " ")); [|reflexivity].
  rewrite exactly_firstn. cbn [andb].
  destruct ((5 <=? length r5) && forallb (in_set zip_set) (firstn 5 r5)); [|reflexivity].
  unfold address_spans. cbn [length].
  do 2 f_equal. repeat (f_equal; try lia).
Qed.

Lemma in_street_set c : in_set street_set c = street_char c.
Proof.
  unfold in_set, street_set, street_char, letter, lowercase_letter,
    uppercase_letter, decimal_digit. cbn [existsb in_item lower upper digit].
  rewrite orb_false_r, !orb_assoc. reflexivity.
Qed.

Lemma in_city_set c : in_set city_set c = city_char c.
Proof.
  unfold in_set, city_set, city_char, letter, lowercase_letter,
    uppercase_letter, decimal_digit. cbn [existsb in_item lower upper digit].
  rewrite orb_false_r, !orb_assoc. reflexivity.
Qed.

Lemma in_state_set c : in_set state_set c = uppercase_letter c.
Proof. unfold in_set, state_set, uppercase_letter. cbn [existsb in_item upper]. apply orb_false_r. Qed.

Lemma in_zip_set c : in_set zip_set c = decimal_digit c.
Proof. unfold in_set, zip_set, decimal_digit. cbn [existsb in_item digit]. apply orb_false_r. Qed.

Lemma forallb_same {A} (f g : A -> bool) l : (forall x, f x = g x) -> forallb f l = forallb g l.
Proof. intros H. induction l; simpl; congruence. Qed.

Lemma span_split cs s a r :
  span cs s = (a, r) ->
  s = a ++ r /\ forallb (in_set cs) a = true /\
  match r with c :: _ => in_set cs c = false | [] => True end.
Proof.
  revert a r. induction s as [|c s IH]; intros a r; simpl.
  - intros [= <- <-]. auto.
  - destruct (in_set cs c) eqn:Hc.
    + destruct (span cs s) as [a' r'] eqn:Hs. intros [= <- <-].
      destruct (IH _ _ eq_refl) as (-> & Ha & Hr). simpl. rewrite Hc. auto.
    + intros [= <- <-]. simpl. auto.
Qed.

Lemma span_app cs a r :
  forallb (in_set cs) a = true ->
  match r with c :: _ => in_set cs c = false | [] => True end ->
  span cs (a ++ r) = (a, r).
Proof.
  intros Ha Hr. induction a as [|c a IH]; simpl in *.
  - destruct r as [|c r]; [reflexivity|]. simpl. rewrite Hr. reflexivity.
  - apply andb_true_iff in Ha as [Hc Ha]. rewrite Hc, IH by assumption. reflexivity.
Qed.

Lemma parse_address_sound s street city state zip trailing :
  parse_address s = Some (street, city, state, zip, trailing) ->
  s = two_line street city state zip trailing /\
  address_parts street city state zip.
Proof.
  unfold parse_address.
  destruct (span street_set s) as [a r1] eqn:Hs1.
  destruct a as [|x a]; [discriminate|].
  destruct r1 as [|c r2]; [discriminate|].
  destruct (char_eqb c NL) eqn:Hc; [|discriminate].
  destruct (span city_set r2) as [b r3] eqn:Hs2.
  destruct b as [|y b]; [discriminate|].
  destruct r3 as [|c1 [|c2 r4]]; try discriminate.
  destruct (char_eqb c1 (N_of_ascii ",")) eqn:Hc1; [|discriminate].
  destruct (char_eqb c2 (N_of_ascii " ")) eqn:Hc2; [|discriminate].
  cbn [andb].
  destruct (2 <=? length r4) eqn:Hl2; [|discriminate].
  destruct (forallb (in_set state_set) (firstn 2 r4)) eqn:Hst; [|discriminate].
  cbn [andb].
  destruct (skipn 2 r4) as [|c3 r5] eqn:Hr5; [discriminate|].
  destruct (char_eqb c3 (N_of_ascii " ")) eqn:Hc3; [|discriminate].
  cbn [andb].
  destruct (5 <=? length r5) eqn:Hl5; [|discriminate].
  destruct (forallb (in_set zip_set) (firstn 5 r5)) eqn:Hz; [|discriminate].
  cbn [andb].
  remember (firstn 2 r4) as st eqn:Est.
  remember (firstn 5 r5) as zp eqn:Ezp.
  remember (skipn 5 r5) as tr eqn:Etr.
  intros [= <- <- <- <- <-].
  apply N.eqb_eq in Hc, Hc1, Hc2, Hc3. subst c c1 c2 c3.
  apply Nat.leb_le in Hl2, Hl5.
  apply span_split in Hs1 as (-> & Ha & _).
  apply span_split in Hs2 as (-> & Hb & _).
  split.
  - assert (H4 : r4 = st ++ N_of_ascii " " :: zp ++ tr).
    { rewrite <- (firstn_skipn 2 r4). rewrite Hr5, <- (firstn_skipn 5 r5).
      subst. reflexivity. }
    unfold two_line. rewrite H4. reflexivity.
  - constructor; try discriminate.
    + rewrite <- Ha. apply forallb_same. intros; symmetry; apply in_street_set.
    + rewrite <- Hb. apply forallb_same. intros; symmetry; apply in_city_set.
    + subst st. rewrite length_firstn. lia.
    + rewrite <- Hst. apply forallb_same. intros; symmetry; apply in_state_set.
    + subst zp. rewrite length_firstn. lia.
    + rewrite <- Hz. apply forallb_same. intros; symmetry; apply in_zip_set.
Qed.

Lemma parse_address_complete street city state zip trailing :
  address_parts street city state zip ->
  parse_address (two_line street city state zip trailing)
  = Some (street, city, state, zip, trailing).
Proof.
  intros [Hs1 Hs2 Hc1 Hc2 Ht1 Ht2 Hz1 Hz2].
  unfold parse_address, two_line.
  rewrite span_app; cycle 1.
  { rewrite <- Hs2. apply forallb_same. apply in_street_set. }
  { reflexivity. }
  destruct street as [|x street]; [contradiction|].
  cbn [char_eqb N.eqb NL Pos.eqb].
  rewrite span_app; cycle 1.
  { rewrite <- Hc2. apply forallb_same. apply in_city_set. }
  { reflexivity. }
  destruct city as [|y city]; [contradiction|].
  change (py ", " ++ state ++ py " " ++ zip ++ trailing)
    with (N_of_ascii "," :: N_of_ascii " " :: state ++ N_of_ascii " " :: zip ++ trailing).
  rewrite !N.eqb_refl || unfold char_eqb; rewrite ?N.eqb_refl. cbn [andb].
  assert (E2 : firstn 2 (state ++ N_of_ascii " " :: zip ++ trailing) = state).
  { rewrite <- Ht1. rewrite firstn_app, Nat.sub_diag, firstn_all. simpl. apply app_nil_r. }
  assert (E3 : skipn 2 (state ++ N_of_ascii " " :: zip ++ trailing) = N_of_ascii " " :: zip ++ trailing).
  { rewrite <- Ht1. rewrite skipn_app, Nat.sub_diag, skipn_all. reflexivity. }
  assert (E5 : firstn 5 (zip ++ trailing) = zip).
  { rewrite <- Hz1. rewrite firstn_app, Nat.sub_diag, firstn_all. simpl. apply app_nil_r. }
  assert (E6 : skipn 5 (zip ++ trailing) = trailing).
  { rewrite <- Hz1. rewrite skipn_app, Nat.sub_diag, skipn_all. reflexivity. }
  rewrite E2, E3, E5, E6.
  rewrite (forallb_same _ _ state in_state_set), Ht2.
  rewrite (forallb_same _ _ zip in_zip_set), Hz2.
  rewrite N.eqb_refl.
  replace (2 <=? _) with true by (symmetry; apply Nat.leb_le; rewrite length_app; lia).
  replace (5 <=? _) with true by (symmetry; apply Nat.leb_le; rewrite length_app; lia).
  reflexivity.
Qed.

Lemma slice_app {A} (a b c : list A) i j :
  i = length a -> j = i + length b ->
  firstn (j - i) (skipn i (a ++ b ++ c)) = b.
Proof.
  intros -> ->. rewrite skipn_app, skipn_all, Nat.sub_diag. simpl.
  replace (length a + length b - length a) with (length b) by lia.
  rewrite firstn_app, Nat.sub_diag, firstn_all. simpl. apply app_nil_r.
Qed.

Lemma address_groups street city state zip trailing :
  length state = 2 -> length zip = 5 ->
  let m := MatchObject (two_line street city state zip trailing)
                       (address_spans street city) in
  group m (py "street_address") = street /\
  group m (py "city") = city /\
  group m (py "state") = state /\
  group m (py "zip") = zip.
Proof.
  intros Hst Hz m. unfold group, m, address_spans. cbn [group_spans subject].
  repeat split.
  - change (span_of (py "street_address") _) with (Some (0, length street)).
    cbv beta iota. unfold two_line. apply (slice_app [] street); simpl; lia.
  - change (span_of (py "city") _) with (Some (length street + 1, length street + 1 + length city)).
    cbv beta iota. unfold two_line.
    change (street ++ NL :: city ++ ?r) with (street ++ [NL] ++ city ++ r).
    rewrite (app_assoc street). apply slice_app; rewrite ?length_app; simpl; lia.
  - change (span_of (py "state") _)
      with (Some (length street + 1 + length city + 2,
                  length street + 1 + length city + 2 + 2)).
    cbv beta iota. unfold two_line.
    change (street ++ NL :: city ++ py ", " ++ state ++ ?r)
      with (street ++ [NL] ++ city ++ py ", " ++ state ++ r).
    rewrite (app_assoc street), (app_assoc _ city), (app_assoc _ (py ", ")).
    apply slice_app; rewrite ?length_app; simpl; lia.
  - change (span_of (py "zip") _)
      with (Some (length street + 1 + length city + 2 + 2 + 1,
                  length street + 1 + length city + 2 + 2 + 1 + 5)).
    cbv beta iota. unfold two_line.
    change (street ++ NL :: city ++ py ", " ++ state ++ py " " ++ zip ++ ?r)
      with (street ++ [NL] ++ city ++ py ", " ++ state ++ py " " ++ zip ++ r).
    rewrite (app_assoc street), (app_assoc _ city), (app_assoc _ (py ", ")),
      (app_assoc _ state), (app_assoc _ (py " ")).
    apply slice_app; rewrite ?length_app; simpl; lia.
Qed.

End AddressFacts.

(** ** White space and line breaks *)

Module StringFacts.

Lemma lstrip_split s :
  exists lead, s = lead ++ lstrip s /\ forallb is_space lead = true.
Proof.
  induction s as [|c s (lead & E & H)]; simpl.
  - exists []. auto.
  - destruct (is_space c) eqn:Hc.
    + exists (c :: lead). simpl. rewrite Hc, H. split; [congruence | reflexivity].
    + exists []. auto.
Qed.

Lemma lstrip_head s c r : lstrip s = c :: r -> is_space c = false.
Proof.
  induction s as [|x s IH]; simpl; [discriminate|].
  destruct (is_space x) eqn:Hx; [assumption|].
  intros [= <- <-]. assumption.
Qed.

Lemma strip_trimmed s : trimmed s (strip s).
Proof.
  unfold trimmed, strip, rstrip.
  destruct (lstrip_split s) as (lead & E1 & H1).
  destruct (lstrip_split (rev (lstrip s))) as (l & E2 & H2).
  exists lead, (rev l). repeat split.
  - rewrite <- rev_app_distr, <- E2, rev_involutive. exact E1.
  - exact H1.
  - rewrite forallb_forall in *. intros x Hx. apply H2, in_rev. exact Hx.
  - intros c r Hc.
    assert (E3 : lstrip s = c :: r ++ rev l).
    { rewrite <- (rev_involutive (lstrip s)), E2, rev_app_distr, Hc. reflexivity. }
    exact (lstrip_head _ _ _ E3).
  - intros c r Hc.
    apply (f_equal (@rev char)) in Hc.
    rewrite rev_involutive, rev_app_distr in Hc. simpl in Hc.
    exact (lstrip_head _ _ _ Hc).
Qed.

Lemma replace_breaks s : replace_char NL (py ", ") s = breaks_to_commas s.
Proof.
  unfold breaks_to_commas. induction s as [|c s IH]; simpl; [reflexivity|].
  destruct (char_eqb c NL); rewrite IH; reflexivity.
Qed.

End StringFacts.

Module SchemaFacts.

Lemma first_field_some p fs f :
  first_field p fs = Some f ->
  exists before after,
    fs = before ++ f :: after /\
    (forall x, In x before -> p x = false) /\ p f = true.
Proof.
  induction fs as [|x fs IH]; simpl; [discriminate|].
  destruct (p x) eqn:Hx.
  - intros [= <-]. exists [], fs. simpl. intuition.
  - intros H. destruct (IH H) as (b & a & -> & Hb & Hf).
    exists (x :: b), a. simpl. repeat split; auto.
    intros y [<- | Hy]; auto.
Qed.

Lemma first_field_found p fs :
  (exists f, In f fs /\ p f = true) -> exists f, first_field p fs = Some f.
Proof.
  intros (f & Hin & Hp). induction fs as [|x fs IH]; simpl; [contradiction|].
  destruct (p x) eqn:Hx; [eauto|].
  destruct Hin as [-> | Hin]; [congruence | auto].
Qed.

Lemma first_field_none p fs :
  (forall f, In f fs -> p f = false) -> first_field p fs = None.
Proof.
  induction fs as [|x fs IH]; simpl; intros H; [reflexivity|].
  rewrite (H x) by auto. apply IH. auto.
Qed.

Lemma check_schema_dict d fs :
  check_schema (PDict d) fs =
  match first_field (fun f => negb (Dict.mem f d)) fs with
  | Some f => Raise (KeyError (py "Missing required field: " ++ f))
  | None => Ok true
  end.
Proof.
  induction fs as [|f fs IH]; [reflexivity|].
  cbn [check_schema contains first_field].
  destruct (Dict.mem f d); simpl; [exact IH | reflexivity].
Qed.

Lemma null_check_dict d fs :
  null_check (PDict d) fs =
  match first_field (null_or_absent d) fs with
  | Some f =>
      match Dict.get f d with
      | None => Raise (KeyError f)
      | Some _ => Raise (ValueError (f ++ py " cannot be Null."))
      end
  | None => Ok true
  end.
Proof.
  induction fs as [|f fs IH]; [reflexivity|].
  cbn [null_check subscript first_field]. unfold null_or_absent at 1.
  destruct (Dict.get f d) as [[]|] eqn:E; try exact IH; rewrite ?E; reflexivity.
Qed.

Lemma mem_nulled k d : Dict.mem k (nulled d) = Dict.mem k d.
Proof.
  unfold Dict.mem, nulled. induction d as [|[k' v] d IH]; simpl; [reflexivity|].
  destruct (pystr_eqb k k'); [reflexivity | exact IH].
Qed.

Lemma check_schema_nulled d fs :
  check_schema (PDict (nulled d)) fs = check_schema (PDict d) fs.
Proof.
  induction fs as [|f fs IH]; [reflexivity|].
  cbn [check_schema contains]. rewrite mem_nulled, IH. reflexivity.
Qed.

Lemma null_check_agree d d' fs :
  (forall f, In f fs -> Dict.get f d' = Dict.get f d) ->
  null_check (PDict d') fs = null_check (PDict d) fs.
Proof.
  induction fs as [|f fs IH]; intros H; [reflexivity|].
  cbn [null_check subscript]. rewrite (H f) by (left; reflexivity).
  rewrite IH by (intros; apply H; right; assumption). reflexivity.
Qed.

End SchemaFacts.

Module RunFacts.

Section Loop.

Variable json_loads : pystr -> result pyvalue.
Variable print_lines : bool.

Local Abbreviation try_suite := (try_suite json_loads print_lines).
Local Abbreviation iteration := (iteration json_loads print_lines).
Local Abbreviation for_lines := (for_lines json_loads print_lines).

Lemma transform_address_raise_row v e :
  fst (transform_address v) = Raise e -> snd (transform_address v) = v.
Proof.
  unfold transform_address.
  destruct v as [| | | | |?|d]; try reflexivity.
  destruct (Dict.get _ d) as [[| | | |a| |]|]; try reflexivity.
  destruct (Re.match_ address_regex a); [discriminate | reflexivity].
Qed.

Lemma try_suite_raise st ln e st1 :
  try_suite st ln = (Raise e, st1) ->
  line_num st1 = line_num st /\ ok_count st1 = ok_count st /\
  reject_count st1 = reject_count st /\ stdout st1 = stdout st /\
  row st1 = match json_loads (strip ln) with
            | Ok v => Some v
            | Raise _ => row st
            end.
Proof.
  unfold try_suite.
  destruct (json_loads (strip ln)) as [v|e0].
  2:{ intros [= <- <-]. auto. }
  destruct (check_schema v VALID_FIELDS).
  2:{ intros [= <- <-]. simpl. auto. }
  destruct (null_check v VALID_FIELDS).
  2:{ intros [= <- <-]. simpl. auto. }
  pose proof (transform_address_raise_row v) as Hrow.
  destruct (transform_address v) as [[b|e1] v']; [discriminate|].
  intros [= <- <-]. simpl in *. rewrite (Hrow e1 eq_refl). auto.
Qed.

Lemma try_suite_ok st ln u st1 :
  try_suite st ln = (Ok u, st1) ->
  line_num st1 = line_num st /\ ok_count st1 = ok_count st + 1 /\
  reject_count st1 = reject_count st /\ row st1 <> None.
Proof.
  unfold try_suite.
  destruct (json_loads (strip ln)) as [v|e0]; [|discriminate].
  destruct (check_schema v VALID_FIELDS); [|discriminate].
  destruct (null_check v VALID_FIELDS); [|discriminate].
  destruct (transform_address v) as [[b|e1] v']; [|discriminate].
  intros [= <- <-]. destruct print_lines; simpl; repeat split; discriminate.
Qed.

(** An error raised while [row] is bound is caught, printed and counted. *)
Lemma iteration_rejects st ln e st1 v :
  try_suite st ln = (Raise e, st1) -> row st1 = Some v ->
  iteration st ln =
  (Ok tt, Frame (line_num st + 1) (ok_count st) (reject_count st + 1)
                (Some v) (stdout st ++ [error_line (line_num st) e v])).
Proof.
  intros H Hv. unfold iteration. rewrite H.
  destruct (try_suite_raise _ _ _ _ H) as (E1 & E2 & E3 & E4 & _).
  unfold except_suite. rewrite Hv. unfold finally_suite, print. simpl.
  rewrite E1, E2, E3, E4, Hv. reflexivity.
Qed.

(** An error raised while [row] is unbound leaves the handler as an
    [UnboundLocalError]: nothing is printed and nothing is counted. *)
Lemma iteration_unbound st ln e st1 :
  try_suite st ln = (Raise e, st1) -> row st1 = None ->
  iteration st ln =
  (Raise (UnboundLocalError (py "row")),
   Frame (line_num st + 1) (ok_count st) (reject_count st) None (stdout st)).
Proof.
  intros H Hv. unfold iteration. rewrite H.
  destruct (try_suite_raise _ _ _ _ H) as (E1 & E2 & E3 & E4 & _).
  unfold except_suite. rewrite Hv. unfold finally_suite. simpl.
  rewrite E1, E2, E3, E4, Hv. reflexivity.
Qed.

Lemma iteration_ok st ln u st1 :
  iteration st ln = (Ok u, st1) ->
  line_num st1 = line_num st + 1 /\
  (ok_count st1 = ok_count st + 1 /\ reject_count st1 = reject_count st \/
   ok_count st1 = ok_count st /\ reject_count st1 = reject_count st + 1) /\
  row st1 <> None.
Proof.
  destruct (try_suite st ln) as [[u0|e] st0] eqn:H.
  - unfold iteration. rewrite H. intros [= <- <-].
    destruct (try_suite_ok _ _ _ _ H) as (E1 & E2 & E3 & E4). simpl.
    rewrite E1, E2, E3. auto.
  - destruct (row st0) as [v|] eqn:Hv.
    + rewrite (iteration_rejects _ _ _ _ _ H Hv). intros [= <- <-]. simpl.
      repeat split; auto. discriminate.
    + rewrite (iteration_unbound _ _ _ _ H Hv). discriminate.
Qed.



Lemma for_lines_counts lines : forall st u st1,
  for_lines lines st = (Ok u, st1) ->
  ok_count st1 + reject_count st1
    = ok_count st + reject_count st + length lines /\
  line_num st1 = line_num st + length lines.
Proof.
  induction lines as [|ln lines IH]; intros st u st1; simpl.
  - intros [= <- <-]. lia.
  - destruct (iteration st ln) as [[u0|e] st0] eqn:H; [|discriminate].
    intros H1. apply IH in H1. apply iteration_ok in H. lia.
Qed.

End Loop.

End RunFacts.

Module RowFacts.

Import AddressFacts DictFacts SchemaFacts.

Lemma transform_address_match d street city state zip trailing :
  address_parts street city state zip ->
  Dict.get (py "registered_address") d
    = Some (PStr (two_line street city state zip trailing)) ->
  transform_address (PDict d)
    = (Ok true, PDict (with_address_parts street city state zip d)).
Proof.
  intros Hp Hget. unfold transform_address. rewrite Hget.
  rewrite match_parse, (parse_address_complete _ _ _ _ _ Hp).
  destruct (address_groups street city state zip trailing
              (state_length _ _ _ _ Hp) (zip_length _ _ _ _ Hp))
    as (E1 & E2 & E3 & E4).
  cbv zeta. rewrite E1, E2, E3, E4. reflexivity.
Qed.

Lemma transform_address_no_match d a :
  Dict.get (py "registered_address") d = Some (PStr a) ->
  Re.match_ address_regex a = None ->
  transform_address (PDict d)
    = (Raise (ValueError (py "Unknown address format: "
                          ++ replace_char NL (py ", ") (strip a))), PDict d).
Proof.
  intros Hget Hm. unfold transform_address. rewrite Hget, Hm. reflexivity.
Qed.

Lemma match_none_iff a :
  Re.match_ address_regex a = None <->
  (forall street city state zip trailing,
      address_parts street city state zip ->
      a <> two_line street city state zip trailing).
Proof.
  rewrite match_parse. split.
  - intros H street city state zip trailing Hp ->.
    rewrite (parse_address_complete _ _ _ _ _ Hp) in H. discriminate.
  - intros H. destruct (parse_address a) as [[[[[street city] state] zip] trailing]|] eqn:E;
      [|reflexivity].
    apply parse_address_sound in E as [E Hp]. exfalso. exact (H _ _ _ _ _ Hp E).
Qed.

Lemma with_address_parts_fields street city state zip d :
  let d' := with_address_parts street city state zip d in
  Dict.mem (py "registered_address") d' = false /\
  Dict.get (py "street_address") d' = Some (PStr street) /\
  Dict.get (py "city") d' = Some (PStr city) /\
  Dict.get (py "state") d' = Some (PStr state) /\
  Dict.get (py "zip") d' = Some (PStr zip).
Proof.
  unfold with_address_parts. cbv zeta. repeat split.
  - apply mem_del_same.
  - rewrite get_del_other, !get_set_other by reflexivity. apply get_set_same.
  - rewrite get_del_other, !get_set_other by reflexivity. apply get_set_same.
  - rewrite get_del_other, !get_set_other by reflexivity. apply get_set_same.
  - rewrite get_del_other by reflexivity. apply get_set_same.
Qed.

(** The row after a match keeps nothing of the address it had. *)
Lemma with_address_parts_set street city state zip a d :
  with_address_parts street city state zip
    (Dict.set (py "registered_address") a d)
  = Dict.set (py "zip") (PStr zip)
      (Dict.set (py "state") (PStr state)
        (Dict.set (py "city") (PStr city)
          (Dict.set (py "street_address") (PStr street)
            (Dict.del (py "registered_address") d)))).
Proof.
  unfold with_address_parts.
  rewrite !del_set_other by reflexivity. rewrite del_set_same. reflexivity.
Qed.

Lemma all_present_check_schema d :
  all_present_non_null d -> check_schema (PDict d) VALID_FIELDS = Ok true.
Proof.
  intros H. rewrite check_schema_dict, first_field_none; [reflexivity|].
  intros f Hf. destruct (H f Hf) as (v & E & _). unfold Dict.mem. rewrite E.
  reflexivity.
Qed.

Lemma all_present_null_check d :
  all_present_non_null d -> null_check (PDict d) VALID_FIELDS = Ok true.
Proof.
  intros H. rewrite null_check_dict, first_field_none; [reflexivity|].
  intros f Hf. destruct (H f Hf) as (v & E & Hn). unfold null_or_absent.
  rewrite E. destruct v; try reflexivity. contradiction.
Qed.

End RowFacts.

(* ================================================================= *)
(** * The claims *)

(** ** Scenarios of the specification, evaluated *)

Example scenario_accepted :
  transform_address (PDict Sample.record)
  = (Ok true,
     PDict [(py "license_plate", PStr (py "ABC123"));
            (py "make_model", PStr (py "Ford Focus"));
            (py "year", PInt 2020);
            (py "registered_name", PStr (py "Jane Doe"));
            (py "registered_date", PStr (py "2023-01-01"));
            (py "street_address", PStr (py "123 Main St"));
            (py "city", PStr (py "Springfield"));
            (py "state", PStr (py "IL"));
            (py "zip", PStr (py "62704"))]).
Proof. vm_compute. reflexivity. Qed.

Example scenario_null_address :
  null_check (PDict Sample.record_null_address) VALID_FIELDS
  = Raise (ValueError (py "registered_address cannot be Null.")).
Proof. vm_compute. reflexivity. Qed.

Example scenario_missing_year :
  check_schema (PDict Sample.record_without_year) VALID_FIELDS
  = Raise (KeyError (py "Missing required field: year")).
Proof. vm_compute. reflexivity. Qed.

Example scenario_one_line_address :
  fst (transform_address (PDict Sample.record_one_line))
  = Raise (ValueError
             (py "Unknown address format: 123 Main St, Springfield, IL 62704")).
Proof. vm_compute. reflexivity. Qed.

Example fmt04_examples :
  fmt04 0 = py "0000" /\ fmt04 7 = py "0007" /\ fmt04 123 = py "0123"
  /\ fmt04 4321 = py "4321" /\ fmt04 (100 * 100) = py "10000".
Proof. vm_compute. repeat split. Qed.

(** ** C3 *)

(** C3: a record that lacks at least one of the six required fields makes
    [check_schema] raise on the first absent field of the declared order,
    with the message "Missing required field: <field>"; one field only is
    reported, and the outcome looks at the keys alone: it is the same when
    every value of the record is replaced by null. *)
Theorem check_schema_reports_first_missing (d : pydict) :
  (exists f, In f VALID_FIELDS /\ Dict.mem f d = false) ->
  exists before f after,
    VALID_FIELDS = before ++ f :: after /\
    (forall f', In f' before -> Dict.mem f' d = true) /\
    Dict.mem f d = false /\
    check_schema (PDict d) VALID_FIELDS
      = Raise (KeyError (py "Missing required field: " ++ f)) /\
    check_schema (PDict (nulled d)) VALID_FIELDS
      = check_schema (PDict d) VALID_FIELDS.
Proof.
  intros (f0 & Hin & Hm).
  destruct (SchemaFacts.first_field_found
              (fun f => negb (Dict.mem f d)) VALID_FIELDS) as (f & Hf).
  { exists f0. rewrite Hm. auto. }
  destruct (SchemaFacts.first_field_some _ _ _ Hf) as (b & a & E & Hb & Hp).
  exists b, f, a. repeat split.
  - exact E.
  - intros f' Hf'. apply negb_false_iff. apply Hb. exact Hf'.
  - apply negb_true_iff. exact Hp.
  - rewrite SchemaFacts.check_schema_dict, Hf. reflexivity.
  - apply SchemaFacts.check_schema_nulled.
Qed.

Lemma check_schema_reports_first_missing_witness :
  exists before f after,
    VALID_FIELDS = before ++ f :: after /\
    (forall f', In f' before ->
                Dict.mem f' Sample.record_without_year = true) /\
    Dict.mem f Sample.record_without_year = false /\
    check_schema (PDict Sample.record_without_year) VALID_FIELDS
      = Raise (KeyError (py "Missing required field: " ++ f)) /\
    check_schema (PDict (nulled Sample.record_without_year)) VALID_FIELDS
      = check_schema (PDict Sample.record_without_year) VALID_FIELDS.
Proof.
  apply (check_schema_reports_first_missing Sample.record_without_year).
  exists (py "year"). split; [simpl; auto | reflexivity].
Defined.

(** ** C4 *)

(** C4: a record that has the six required fields, one of them at least
    with a null value, makes [null_check] raise on the first such field of
    the declared order, with the message "<field> cannot be Null."; the row
    is rejected with that error; the outcome depends on the values of the
    required fields only; and in a row the null check is not reached when
    the schema check raises. *)
Theorem null_check_reports_first_null (d : pydict) :
  (forall f, In f VALID_FIELDS -> Dict.mem f d = true) ->
  (exists f, In f VALID_FIELDS /\ Dict.get f d = Some PNone) ->
  exists before f after,
    VALID_FIELDS = before ++ f :: after /\
    (forall f', In f' before ->
                exists v, Dict.get f' d = Some v /\ v <> PNone) /\
    Dict.get f d = Some PNone /\
    null_check (PDict d) VALID_FIELDS
      = Raise (ValueError (f ++ py " cannot be Null.")) /\
    (forall json_loads print_lines st ln,
        json_loads (strip ln) = Ok (PDict d) ->
        fst (try_suite json_loads print_lines st ln)
        = Raise (ValueError (f ++ py " cannot be Null."))) /\
    (forall d',
        (forall f', In f' VALID_FIELDS -> Dict.get f' d' = Dict.get f' d) ->
        null_check (PDict d') VALID_FIELDS = null_check (PDict d) VALID_FIELDS) /\
    (forall json_loads print_lines st ln v e,
        json_loads (strip ln) = Ok v ->
        check_schema v VALID_FIELDS = Raise e ->
        fst (try_suite json_loads print_lines st ln) = Raise e).
Proof.
  intros Hall (f0 & Hin & Hnull).
  destruct (SchemaFacts.first_field_found (null_or_absent d) VALID_FIELDS)
    as (f & Hf).
  { exists f0. unfold null_or_absent. rewrite Hnull. auto. }
  destruct (SchemaFacts.first_field_some _ _ _ Hf) as (b & a & E & Hb & Hp).
  assert (Hfd : Dict.get f d = Some PNone).
  { assert (Hm : Dict.mem f d = true).
    { apply Hall. rewrite E. apply in_or_app. right. left. reflexivity. }
    unfold Dict.mem in Hm. unfold null_or_absent in Hp.
    destruct (Dict.get f d) as [[]|]; try discriminate. reflexivity. }
  assert (Hnc : null_check (PDict d) VALID_FIELDS
                = Raise (ValueError (f ++ py " cannot be Null."))).
  { rewrite SchemaFacts.null_check_dict, Hf, Hfd. reflexivity. }
  exists b, f, a. repeat split.
  - exact E.
  - intros f' Hf'. specialize (Hb f' Hf').
    assert (Hm : Dict.mem f' d = true).
    { apply Hall. rewrite E. apply in_or_app. left. exact Hf'. }
    unfold Dict.mem in Hm. unfold null_or_absent in Hb.
    destruct (Dict.get f' d) as [v|]; [|discriminate].
    exists v. split; [reflexivity|]. intros ->. discriminate.
  - exact Hfd.
  - exact Hnc.
  - intros json_loads print_lines st ln Hd. unfold try_suite. rewrite Hd.
    rewrite SchemaFacts.check_schema_dict, SchemaFacts.first_field_none.
    + rewrite Hnc. reflexivity.
    + intros x Hx. rewrite (Hall x Hx). reflexivity.
  - intros d' Hd'. apply SchemaFacts.null_check_agree. exact Hd'.
  - intros json_loads print_lines st ln v e Hd Hc. unfold try_suite.
    rewrite Hd, Hc. reflexivity.
Qed.

Lemma null_check_reports_first_null_witness :
  exists before f after,
    VALID_FIELDS = before ++ f :: after /\
    (forall f', In f' before ->
                exists v, Dict.get f' Sample.record_null_address = Some v
                          /\ v <> PNone) /\
    Dict.get f Sample.record_null_address = Some PNone /\
    null_check (PDict Sample.record_null_address) VALID_FIELDS
      = Raise (ValueError (f ++ py " cannot be Null.")) /\
    (forall json_loads print_lines st ln,
        json_loads (strip ln) = Ok (PDict Sample.record_null_address) ->
        fst (try_suite json_loads print_lines st ln)
        = Raise (ValueError (f ++ py " cannot be Null."))) /\
    (forall d',
        (forall f', In f' VALID_FIELDS ->
                    Dict.get f' d' = Dict.get f' Sample.record_null_address) ->
        null_check (PDict d') VALID_FIELDS
        = null_check (PDict Sample.record_null_address) VALID_FIELDS) /\
    (forall json_loads print_lines st ln v e,
        json_loads (strip ln) = Ok v ->
        check_schema v VALID_FIELDS = Raise e ->
        fst (try_suite json_loads print_lines st ln) = Raise e).
Proof.
  apply (null_check_reports_first_null Sample.record_null_address).
  - intros f Hf. simpl in Hf.
    repeat (destruct Hf as [<- | Hf]; [reflexivity|]). contradiction.
  - exists (py "registered_address"). split; [simpl; auto 10 | reflexivity].
Defined.

(** ** C2 *)

(** C2: a line that decodes to a record with the six required fields, none
    of them null, whose address is a two-line address (whatever follows it),
    is accepted: the accepted count goes up by one, the rejected count stays,
    and the row that results has no [registered_address] key and has
    [street_address], [city], [state] and [zip] equal to the four parts, the
    postal code as the text of its five digits. *)
Theorem valid_row_is_accepted
    (json_loads : pystr -> result pyvalue) (print_lines : bool)
    (st : frame) (ln : pystr) (d : pydict)
    (street city state zip trailing : pystr) :
  json_loads (strip ln) = Ok (PDict d) ->
  all_present_non_null d ->
  Dict.get (py "registered_address") d
    = Some (PStr (two_line street city state zip trailing)) ->
  address_parts street city state zip ->
  exists d',
    transform_address (PDict d) = (Ok true, PDict d') /\
    iteration json_loads print_lines st ln
    = (Ok tt,
       Frame (line_num st + 1) (ok_count st + 1) (reject_count st)
             (Some (PDict d'))
             (if print_lines
              then stdout st ++ [ok_line (line_num st) (PDict d')]
              else stdout st)) /\
    Dict.mem (py "registered_address") d' = false /\
    Dict.get (py "street_address") d' = Some (PStr street) /\
    Dict.get (py "city") d' = Some (PStr city) /\
    Dict.get (py "state") d' = Some (PStr state) /\
    Dict.get (py "zip") d' = Some (PStr zip).
Proof.
  intros Hd Hall Hget Hp.
  exists (with_address_parts street city state zip d).
  pose proof (RowFacts.transform_address_match d _ _ _ _ trailing Hp Hget) as Ht.
  split; [exact Ht|]. split.
  - unfold iteration, try_suite. rewrite Hd.
    rewrite (RowFacts.all_present_check_schema d Hall).
    rewrite (RowFacts.all_present_null_check d Hall).
    rewrite Ht. destruct print_lines; reflexivity.
  - apply RowFacts.with_address_parts_fields.
Qed.

Lemma sample_record_complete : all_present_non_null Sample.record.
Proof.
  intros f Hf. simpl in Hf.
  repeat (destruct Hf as [<- | Hf];
          [eexists; split; [reflexivity | discriminate]|]).
  contradiction.
Qed.

Lemma sample_address_parts :
  address_parts (py "123 Main St") (py "Springfield") (py "IL") (py "62704").
Proof. constructor; try discriminate; reflexivity. Qed.

Lemma valid_row_is_accepted_witness :
  exists d',
    transform_address (PDict Sample.record) = (Ok true, PDict d') /\
    iteration (Sample.loads_const (PDict Sample.record)) true initial []
    = (Ok tt,
       Frame (1 + 1) (0 + 1) 0 (Some (PDict d')) ([] ++ [ok_line 1 (PDict d')])) /\
    Dict.mem (py "registered_address") d' = false /\
    Dict.get (py "street_address") d' = Some (PStr (py "123 Main St")) /\
    Dict.get (py "city") d' = Some (PStr (py "Springfield")) /\
    Dict.get (py "state") d' = Some (PStr (py "IL")) /\
    Dict.get (py "zip") d' = Some (PStr (py "62704")).
Proof.
  apply (valid_row_is_accepted (Sample.loads_const (PDict Sample.record)) true
           initial [] Sample.record
           (py "123 Main St") (py "Springfield") (py "IL") (py "62704") []).
  - reflexivity.
  - exact sample_record_complete.
  - reflexivity.
  - exact sample_address_parts.
Defined.

(** ** C5 *)

(** C5: when the address of a record is a string that is not a two-line
    address, [transform_address] raises, and its message is "Unknown address
    format: " followed by the address without its leading and trailing white
    space and with every line break inside it replaced by ", ". *)
Theorem unknown_address_format_message (d : pydict) (a : pystr) :
  Dict.get (py "registered_address") d = Some (PStr a) ->
  (forall street city state zip trailing,
      address_parts street city state zip ->
      a <> two_line street city state zip trailing) ->
  exists core,
    trimmed a core /\
    fst (transform_address (PDict d))
    = Raise (ValueError (py "Unknown address format: "
                         ++ breaks_to_commas core)).
Proof.
  intros Hget Hshape. exists (strip a). split.
  - apply StringFacts.strip_trimmed.
  - apply RowFacts.match_none_iff in Hshape.
    rewrite (RowFacts.transform_address_no_match d a Hget Hshape).
    simpl. rewrite StringFacts.replace_breaks. reflexivity.
Qed.

Lemma one_line_address_has_no_parts :
  forall street city state zip trailing,
    address_parts street city state zip ->
    Sample.one_line_address <> two_line street city state zip trailing.
Proof. apply RowFacts.match_none_iff. vm_compute. reflexivity. Qed.

Lemma unknown_address_format_message_witness :
  exists core,
    trimmed Sample.one_line_address core /\
    fst (transform_address (PDict Sample.record_one_line))
    = Raise (ValueError (py "Unknown address format: "
                         ++ breaks_to_commas core)).
Proof.
  apply (unknown_address_format_message Sample.record_one_line
           Sample.one_line_address).
  - reflexivity.
  - exact one_line_address_has_no_parts.
Defined.

(** ** C6 *)

(** C6: the match is anchored at the start of the address and free at its
    end. An address that begins with a two-line address is transformed
    whatever follows, and the row that results is the one the address alone
    gives: what follows is ignored; an address in which the pattern matches
    at a later position only, after leading content, makes
    [transform_address] raise the unknown-format error and leaves the row as
    it was. *)
Theorem address_match_is_anchored_at_start :
  (forall d street city state zip trailing,
      address_parts street city state zip ->
      Dict.get (py "registered_address") d
        = Some (PStr (two_line street city state zip trailing)) ->
      transform_address (PDict d)
      = (Ok true, PDict (with_address_parts street city state zip d)))
  /\
  (forall d street city state zip trailing,
      address_parts street city state zip ->
      transform_address
        (PDict (Dict.set (py "registered_address")
                  (PStr (two_line street city state zip trailing)) d))
      = transform_address
          (PDict (Dict.set (py "registered_address")
                    (PStr (two_line street city state zip [])) d)))
  /\
  (forall d a k m,
      Dict.get (py "registered_address") d = Some (PStr a) ->
      0 < k ->
      Re.match_ address_regex (skipn k a) = Some m ->
      (forall j, j < k -> Re.match_ address_regex (skipn j a) = None) ->
      transform_address (PDict d)
      = (Raise (ValueError (py "Unknown address format: "
                            ++ replace_char NL (py ", ") (strip a))),
         PDict d)).
Proof.
  split; [|split].
  - intros d street city state zip trailing Hp Hget.
    exact (RowFacts.transform_address_match d _ _ _ _ trailing Hp Hget).
  - intros d street city state zip trailing Hp.
    rewrite (RowFacts.transform_address_match _ _ _ _ _ trailing Hp
               (DictFacts.get_set_same _ _ d)).
    rewrite (RowFacts.transform_address_match _ _ _ _ _ [] Hp
               (DictFacts.get_set_same _ _ d)).
    rewrite !RowFacts.with_address_parts_set. reflexivity.
  - intros d a k m Hget Hk _ Hnone.
    apply (RowFacts.transform_address_no_match d a Hget).
    exact (Hnone 0 Hk).
Qed.

Lemma address_match_is_anchored_at_start_witness :
  transform_address
    (PDict (Sample.record_with (PStr (Sample.address ++ py " and more"))))
  = (Ok true,
     PDict (with_address_parts (py "123 Main St") (py "Springfield")
              (py "IL") (py "62704")
              (Sample.record_with (PStr (Sample.address ++ py " and more")))))
  /\
  transform_address
    (PDict (Dict.set (py "registered_address")
              (PStr (two_line (py "123 Main St") (py "Springfield")
                       (py "IL") (py "62704") (py " and more")))
              Sample.record))
  = transform_address
      (PDict (Dict.set (py "registered_address")
                (PStr (two_line (py "123 Main St") (py "Springfield")
                         (py "IL") (py "62704") []))
                Sample.record))
  /\
  transform_address
    (PDict (Sample.record_with (PStr (py "# " ++ Sample.address))))
  = (Raise (ValueError
              (py "Unknown address format: "
               ++ replace_char NL (py ", ")
                    (strip (py "# " ++ Sample.address)))),
     PDict (Sample.record_with (PStr (py "# " ++ Sample.address)))).
Proof.
  destruct address_match_is_anchored_at_start as (H1 & H2 & H3).
  split; [|split].
  - apply (H1 (Sample.record_with (PStr (Sample.address ++ py " and more")))
              (py "123 Main St") (py "Springfield") (py "IL") (py "62704")
              (py " and more")).
    + exact sample_address_parts.
    + reflexivity.
  - apply (H2 Sample.record).
    exact sample_address_parts.
  - apply (H3 (Sample.record_with (PStr (py "# " ++ Sample.address)))
              (py "# " ++ Sample.address) 1
              (Re.MatchObject (skipn 1 (py "# " ++ Sample.address))
                 (address_spans (py " 123 Main St") (py "Springfield")))).
    + reflexivity.
    + lia.
    + vm_compute. reflexivity.
    + intros j Hj. assert (j = 0) as -> by lia. vm_compute. reflexivity.
Defined.

(** ** C7 *)

(** C7: a rejected record keeps its shape. Whenever [transform_address]
    raises, the row it leaves is the row it was given; in particular, when
    the address does not match, the four structured fields are not set and
    [registered_address] stays; and an error raised in a row after the line
    was decoded leaves the decoded row, unchanged, as the row of the
    rejection. *)
Theorem rejected_row_is_unchanged :
  (forall v e,
      fst (transform_address v) = Raise e -> snd (transform_address v) = v)
  /\
  (forall d a,
      Dict.get (py "registered_address") d = Some (PStr a) ->
      Re.match_ address_regex a = None ->
      exists msg, transform_address (PDict d) = (Raise (ValueError msg), PDict d))
  /\
  (forall v v',
      snd (transform_address v) = v' -> v' <> v ->
      exists d a m,
        v = PDict d /\
        Dict.get (py "registered_address") d = Some (PStr a) /\
        Re.match_ address_regex a = Some m)
  /\
  (forall json_loads print_lines st ln v e st1,
      json_loads (strip ln) = Ok v ->
      try_suite json_loads print_lines st ln = (Raise e, st1) ->
      row st1 = Some v).
Proof.
  repeat split.
  - exact RunFacts.transform_address_raise_row.
  - intros d a Hget Hm. eexists.
    exact (RowFacts.transform_address_no_match d a Hget Hm).
  - intros v v' <- Hne. unfold transform_address in Hne.
    destruct v as [| | | | |?|d]; try (exfalso; apply Hne; reflexivity).
    destruct (Dict.get (py "registered_address") d) as [[| | | |a| |]|] eqn:Hget;
      try (exfalso; apply Hne; reflexivity).
    destruct (Re.match_ address_regex a) as [m|] eqn:Hm;
      [|exfalso; apply Hne; reflexivity].
    exists d, a, m. auto.
  - intros json_loads print_lines st ln v e st1 Hd H.
    destruct (RunFacts.try_suite_raise _ _ _ _ _ _ H) as (_ & _ & _ & _ & Hrow).
    rewrite Hd in Hrow. exact Hrow.
Qed.

Lemma rejected_row_is_unchanged_witness :
  snd (transform_address (PDict Sample.record_one_line))
  = PDict Sample.record_one_line
  /\ (exists msg,
         transform_address (PDict Sample.record_one_line)
         = (Raise (ValueError msg), PDict Sample.record_one_line))
  /\ row (snd (try_suite (Sample.loads_const (PDict Sample.record_one_line))
                 false initial []))
     = Some (PDict Sample.record_one_line).
Proof.
  destruct rejected_row_is_unchanged as (H1 & H2 & _ & H4).
  split; [|split].
  - eapply H1. vm_compute. reflexivity.
  - apply (H2 Sample.record_one_line Sample.one_line_address).
    + reflexivity.
    + vm_compute. reflexivity.
  - eapply (H4 (Sample.loads_const (PDict Sample.record_one_line)) false
              initial []).
    + reflexivity.
    + vm_compute. reflexivity.
Defined.

(** ** C10 *)

(** C10: a line that decodes to a record with the six required fields, none
    of them null, whose address is not a string makes [transform_address]
    raise a [TypeError], not the unknown-format [ValueError]; the handler of
    [run] catches it: the rejection line is printed with the row unchanged,
    the rejected count goes up by one, and the loop goes on. *)
Theorem non_string_address_is_a_type_error
    (json_loads : pystr -> result pyvalue) (print_lines : bool)
    (st : frame) (ln : pystr) (d : pydict) (v : pyvalue) :
  json_loads (strip ln) = Ok (PDict d) ->
  all_present_non_null d ->
  Dict.get (py "registered_address") d = Some v ->
  (forall s, v <> PStr s) ->
  transform_address (PDict d) = (Raise TypeError, PDict d) /\
  iteration json_loads print_lines st ln
  = (Ok tt,
     Frame (line_num st + 1) (ok_count st) (reject_count st + 1)
           (Some (PDict d))
           (stdout st ++ [error_line (line_num st) TypeError (PDict d)])).
Proof.
  intros Hd Hall Hget Hv.
  assert (Ht : transform_address (PDict d) = (Raise TypeError, PDict d)).
  { unfold transform_address. rewrite Hget.
    destruct v; try reflexivity. exfalso. exact (Hv s eq_refl). }
  split; [exact Ht|].
  apply (RunFacts.iteration_rejects json_loads print_lines st ln TypeError
           (with_row st (PDict d))); [|reflexivity].
  unfold try_suite. rewrite Hd.
  rewrite (RowFacts.all_present_check_schema d Hall).
  rewrite (RowFacts.all_present_null_check d Hall).
  rewrite Ht. reflexivity.
Qed.

Lemma record_with_number_complete :
  all_present_non_null (Sample.record_with (PInt 12345)).
Proof.
  intros f Hf. simpl in Hf.
  repeat (destruct Hf as [<- | Hf];
          [eexists; split; [reflexivity | discriminate]|]).
  contradiction.
Qed.

Lemma non_string_address_is_a_type_error_witness :
  transform_address (PDict (Sample.record_with (PInt 12345)))
  = (Raise TypeError, PDict (Sample.record_with (PInt 12345))) /\
  iteration (Sample.loads_const (PDict (Sample.record_with (PInt 12345))))
            false initial []
  = (Ok tt,
     Frame (1 + 1) 0 (0 + 1) (Some (PDict (Sample.record_with (PInt 12345))))
           ([] ++ [error_line 1 TypeError
                     (PDict (Sample.record_with (PInt 12345)))])).
Proof.
  apply (non_string_address_is_a_type_error
           (Sample.loads_const (PDict (Sample.record_with (PInt 12345))))
           false initial [] (Sample.record_with (PInt 12345)) (PInt 12345)).
  - reflexivity.
  - exact record_with_number_complete.
  - reflexivity.
  - intros s. discriminate.
Defined.

(** ** C8 *)

(** C8: when [run] completes, the two tallies of the last line of the output
    add up to the number of lines of the file, which is the number the line
    before reports as read; every turn of the loop that ends adds one to
    exactly one of the two counts; and an empty file is read to the end with
    0 rows read, 0 accepted and 0 rejected. *)
Theorem counts_add_up
    (json_loads : pystr -> result pyvalue)
    (open_ : pystr -> result text_file) (print_lines : bool)
    (file_name : pystr) (json_file : text_file) (out : list line) :
  open_ file_name = Ok json_file ->
  run json_loads open_ print_lines file_name = (Ok tt, out) ->
  (exists before ok rejected,
      out = before ++ [read_line (length (file_lines json_file));
                       tally_line ok rejected] /\
      ok + rejected = length (file_lines json_file))
  /\
  (forall st ln st1,
      iteration json_loads print_lines st ln = (Ok tt, st1) ->
      (ok_count st1 = ok_count st + 1 /\ reject_count st1 = reject_count st)
      \/ (ok_count st1 = ok_count st /\ reject_count st1 = reject_count st + 1))
  /\
  (file_lines json_file = [] ->
   out = [[Text (py "Read 0 rows")];
          [Text (py "OK rows: 0000, Rejected rows: 0000")]]).
Proof.
  intros Hopen Hrun. unfold run in Hrun. rewrite Hopen in Hrun.
  split; [|split].
  - destruct (for_lines json_loads print_lines (file_lines json_file) initial)
      as [[u|e] st] eqn:Hloop; [|discriminate].
    destruct (read_error json_file); [discriminate|].
    injection Hrun as <-.
    destruct (RunFacts.for_lines_counts _ _ _ _ _ _ Hloop) as (Hc & Hn).
    simpl in Hc, Hn.
    exists (stdout st), (ok_count st), (reject_count st). split; [|exact Hc].
    assert (E : line_num st - 1 = length (file_lines json_file)) by lia.
    unfold print. simpl. rewrite E, <- app_assoc. reflexivity.
  - intros st ln st1 H. apply (RunFacts.iteration_ok _ _ _ _ _ _ H).
  - intros Hnil. rewrite Hnil in Hrun. simpl in Hrun.
    destruct (read_error json_file); [discriminate|].
    injection Hrun as <-. reflexivity.
Qed.

Lemma counts_add_up_witness :
  let loads := Sample.loads_const (PDict Sample.record_one_line) in
  let file := TextFile [py "first"; py "second"] None in
  let out := snd (run loads (Sample.open_lines (file_lines file)) false []) in
  (exists before ok rejected,
      out = before ++ [read_line (length (file_lines file));
                       tally_line ok rejected] /\
      ok + rejected = length (file_lines file))
  /\
  (forall st ln st1,
      iteration loads false st ln = (Ok tt, st1) ->
      (ok_count st1 = ok_count st + 1 /\ reject_count st1 = reject_count st)
      \/ (ok_count st1 = ok_count st /\ reject_count st1 = reject_count st + 1))
  /\
  (file_lines file = [] ->
   out = [[Text (py "Read 0 rows")];
          [Text (py "OK rows: 0000, Rejected rows: 0000")]]).
Proof.
  intros loads file out.
  apply (counts_add_up loads (Sample.open_lines (file_lines file)) false []
           file out).
  - reflexivity.
  - vm_compute. reflexivity.
Defined.

(** An empty file that is read to its end: [run] returns, with the two
    summary lines. *)
Lemma run_empty_file json_loads open_ print_lines file_name :
  open_ file_name = Ok (TextFile [] None) ->
  run json_loads open_ print_lines file_name
  = (Ok tt, [[Text (py "Read 0 rows")];
             [Text (py "OK rows: 0000, Rejected rows: 0000")]]).
Proof. intros H. unfold run. rewrite H. reflexivity. Qed.


(** A file that cannot be opened: the error of [open] leaves [run], and
    nothing is printed. *)
Lemma run_open_fails json_loads open_ print_lines file_name e :
  open_ file_name = Raise e ->
  run json_loads open_ print_lines file_name = (Raise e, []).
Proof. intros H. unfold run. rewrite H. reflexivity. Qed.

(** A line that is not JSON, after a line that was decoded: the handler
    runs, and the row it prints is the one the earlier line left. *)
Lemma later_decode_error_prints_earlier_row
    json_loads print_lines st ln e v :
  row st = Some v ->
  json_loads (strip ln) = Raise e ->
  iteration json_loads print_lines st ln
  = (Ok tt,
     Frame (line_num st + 1) (ok_count st) (reject_count st + 1) (Some v)
           (stdout st ++ [error_line (line_num st) e v])).
Proof.
  intros Hv Hd.
  apply (RunFacts.iteration_rejects json_loads print_lines st ln e st);
    [|exact Hv].
  unfold try_suite. rewrite Hd. reflexivity.
Qed.

(** ** C1 *)

(** C1, at a file whose first line is not JSON: the decoder raises before
    [row] is bound, the handler raises an [UnboundLocalError] while it formats
    the rejection line, and the loop ends there: no rejection line is
    printed, the rejected count stays 0, and the lines that follow are not
    read. *)
Theorem first_line_not_json_ends_the_loop
    (json_loads : pystr -> result pyvalue) (print_lines : bool)
    (ln : pystr) (rest : list pystr) (e : exn) :
  json_loads (strip ln) = Raise e ->
  for_lines json_loads print_lines (ln :: rest) initial
  = (Raise (UnboundLocalError (py "row")), Frame 2 0 0 None []).
Proof.
  intros Hd. simpl.
  rewrite (RunFacts.iteration_unbound json_loads print_lines initial ln e initial);
    [reflexivity | | reflexivity].
  unfold try_suite. rewrite Hd. reflexivity.
Qed.

Lemma first_line_not_json_ends_the_loop_witness :
  for_lines Sample.loads_fail false [py "not json"; py "{}"] initial
  = (Raise (UnboundLocalError (py "row")), Frame 2 0 0 None []).
Proof.
  apply (first_line_not_json_ends_the_loop Sample.loads_fail false
           (py "not json") [py "{}"] Sample.decode_error).
  reflexivity.
Defined.

(** ** C9 *)

(** C9, at a file that opens and is read without error but whose first line
    is not JSON: [run] ends with the [UnboundLocalError] of the handler and
    has printed nothing, so its output does not end with the two summary
    lines. *)
Theorem summary_missing_when_first_line_is_not_json
    (json_loads : pystr -> result pyvalue)
    (open_ : pystr -> result text_file) (print_lines : bool)
    (file_name ln : pystr) (rest : list pystr) (e : exn) :
  open_ file_name = Ok (TextFile (ln :: rest) None) ->
  json_loads (strip ln) = Raise e ->
  run json_loads open_ print_lines file_name
  = (Raise (UnboundLocalError (py "row")), []) /\
  forall before n ok rejected,
    snd (run json_loads open_ print_lines file_name)
    <> before ++ [read_line n; tally_line ok rejected].
Proof.
  intros Hopen Hd.
  assert (Hrun : run json_loads open_ print_lines file_name
                 = (Raise (UnboundLocalError (py "row")), [])).
  { unfold run. rewrite Hopen. cbn [file_lines].
    assert (Hloop : for_lines json_loads print_lines (ln :: rest) initial
                    = (Raise (UnboundLocalError (py "row")), Frame 2 0 0 None [])).
    { simpl.
      rewrite (RunFacts.iteration_unbound json_loads print_lines initial ln e
                 initial); [reflexivity | | reflexivity].
      unfold try_suite. rewrite Hd. reflexivity. }
    rewrite Hloop. reflexivity. }
  split; [exact Hrun|].
  intros before n ok rejected. rewrite Hrun. simpl.
  destruct before; discriminate.
Qed.

Lemma summary_missing_when_first_line_is_not_json_witness :
  run Sample.loads_fail (Sample.open_lines [py "not json"]) false
      (py "./data/vehicles_complex.json")
  = (Raise (UnboundLocalError (py "row")), []) /\
  forall before n ok rejected,
    snd (run Sample.loads_fail (Sample.open_lines [py "not json"]) false
             (py "./data/vehicles_complex.json"))
    <> before ++ [read_line n; tally_line ok rejected].
Proof.
  apply (summary_missing_when_first_line_is_not_json Sample.loads_fail
           (Sample.open_lines [py "not json"]) false
           (py "./data/vehicles_complex.json") (py "not json") []
           Sample.decode_error).
  - reflexivity.
  - reflexivity.
Defined.

(* ================================================================= *)
(** * Further properties of the pipeline *)

(** ** Formatted counts *)

Module FormatFacts.

Lemma parse_digits_uint u acc :
  parse_digits (py (DecimalString.NilEmpty.string_of_uint u)) acc
  = Some (Nat.of_uint_acc u acc).
Proof.
  revert acc. induction u; intros acc; simpl; try reflexivity;
    unfold py in IHu; rewrite IHu; rewrite Nat.tail_mul_spec; do 2 f_equal; lia.
Qed.

Lemma parse_digits_decimal n : parse_digits (decimal n) 0 = Some n.
Proof.
  unfold decimal, DecimalString.NilZero.string_of_uint.
  rewrite <- (DecimalNat.Unsigned.of_to n) at 2.
  destruct (Nat.to_uint n) eqn:E; try (rewrite parse_digits_uint; reflexivity).
  reflexivity.
Qed.

Lemma parse_digits_zeros k s :
  parse_digits (repeat (N_of_ascii "0") k ++ s) 0 = parse_digits s 0.
Proof. induction k; simpl; auto. Qed.

Lemma fmt04_length n : 4 <= length (fmt04 n).
Proof. unfold fmt04. cbv zeta. rewrite length_app, repeat_length. unfold char. lia. Qed.

Lemma fmt04_small_check :
  forallb (fun n => length (fmt04 n) =? 4) (seq 0 (100 * 100)) = true.
Proof. vm_compute. reflexivity. Qed.

End FormatFacts.

(** X17: a count formatted with [04d] has at least four characters, exactly
    four below 10000, and reads back as the count: the zeros on the left do
    not change it and no digit is dropped. *)
Theorem fmt04_reads_back (n : nat) :
  4 <= length (fmt04 n) /\
  parse_decimal (fmt04 n) = Some n /\
  (n < 100 * 100 -> length (fmt04 n) = 4).
Proof.
  split; [apply FormatFacts.fmt04_length|]. split.
  - pose proof (FormatFacts.fmt04_length n) as H. unfold parse_decimal.
    destruct (fmt04 n) eqn:E; [simpl in H; lia|]. rewrite <- E.
    unfold fmt04. cbv zeta. rewrite FormatFacts.parse_digits_zeros.
    apply FormatFacts.parse_digits_decimal.
  - intros Hn. pose proof FormatFacts.fmt04_small_check as H.
    rewrite forallb_forall in H. apply Nat.eqb_eq. apply H. apply in_seq. lia.
Qed.

Lemma fmt04_reads_back_witness :
  4 <= length (fmt04 42) /\
  parse_decimal (fmt04 42) = Some 42 /\
  length (fmt04 42) = 4.
Proof.
  destruct (fmt04_reads_back 42) as (H1 & H2 & H3).
  split; [exact H1|]. split; [exact H2|]. apply H3. lia.
Defined.

(** ** Rows *)

Module MoreDictFacts.

Lemma get_set_neq k k' v d :
  k <> k' -> Dict.get k (Dict.set k' v d) = Dict.get k d.
Proof. intros H. apply DictFacts.get_set_other, pystr_eqb_neq, H. Qed.

Lemma get_del_neq k k' d :
  k <> k' -> Dict.get k (Dict.del k' d) = Dict.get k d.
Proof. intros H. apply DictFacts.get_del_other, pystr_eqb_neq, H. Qed.

Lemma set_absent k v d :
  Dict.mem k d = false -> Dict.set k v d = d ++ [(k, v)].
Proof.
  unfold Dict.mem. induction d as [|[k' v'] d IH]; simpl; [reflexivity|].
  destruct (pystr_eqb k k'); [discriminate|]. intros H. rewrite IH by exact H.
  reflexivity.
Qed.

Lemma mem_app_other k k' v d :
  pystr_eqb k k' = false -> Dict.mem k (d ++ [(k', v)]) = Dict.mem k d.
Proof.
  intros H. unfold Dict.mem. induction d as [|[k2 v2] d IH]; simpl.
  - rewrite H. reflexivity.
  - destruct (pystr_eqb k k2); [reflexivity | exact IH].
Qed.

End MoreDictFacts.

(** ** [check_schema] and [null_check] as decision procedures *)

(** X1: on a record, [check_schema] returns [True] exactly when every
    required field is a key of the record, whatever list of required fields
    it is given. *)
Theorem check_schema_accepts_iff_all_keys
    (d : pydict) (required_fields : list pystr) :
  check_schema (PDict d) required_fields = Ok true <->
  (forall f, In f required_fields -> Dict.mem f d = true).
Proof.
  induction required_fields as [|f fs IH]; cbn [check_schema contains].
  - split; [intros _ f [] | reflexivity].
  - destruct (Dict.mem f d) eqn:E.
    + rewrite IH. split.
      * intros H x [<- | Hx]; auto.
      * intros H x Hx. apply H. right. exact Hx.
    + split; [discriminate|]. intros H.
      rewrite (H f (or_introl eq_refl)) in E. discriminate.
Qed.

(** X2: on a record, [null_check] returns [True] exactly when every required
    field is a key of the record with a value that is not [None]. *)
Theorem null_check_accepts_iff_no_null
    (d : pydict) (required_fields : list pystr) :
  null_check (PDict d) required_fields = Ok true <->
  (forall f, In f required_fields ->
             exists v, Dict.get f d = Some v /\ v <> PNone).
Proof.
  induction required_fields as [|f fs IH]; cbn [null_check subscript].
  - split; [intros _ f [] | reflexivity].
  - destruct (Dict.get f d) as [v|] eqn:E.
    + destruct v;
        try (rewrite IH; split;
             [intros H x [<- | Hx];
              [eexists; split; [exact E | discriminate] | auto]
             |intros H x Hx; apply H; right; exact Hx]).
      split; [discriminate|]. intros H.
      destruct (H f (or_introl eq_refl)) as (v & Hv & Hn).
      rewrite E in Hv. injection Hv as <-. contradiction.
    + split; [discriminate|]. intros H.
      destruct (H f (or_introl eq_refl)) as (v & Hv & _).
      rewrite E in Hv. discriminate.
Qed.

(** X3: called on a record that lacks a required field, with every field
    declared before it present and not null, [null_check] raises the
    [KeyError] of the dictionary lookup, whose argument is the bare field
    name. *)
Theorem null_check_missing_field_is_key_error
    (d : pydict) (before : list pystr) (f : pystr) (after : list pystr) :
  (forall x, In x before -> exists v, Dict.get x d = Some v /\ v <> PNone) ->
  Dict.get f d = None ->
  null_check (PDict d) (before ++ f :: after) = Raise (KeyError f).
Proof.
  intros Hb Hf. induction before as [|x before IH]; cbn [app null_check subscript].
  - rewrite Hf. reflexivity.
  - destruct (Hb x (or_introl eq_refl)) as (v & Hv & Hn). rewrite Hv.
    assert (IH' := IH (fun y Hy => Hb y (or_intror Hy))).
    destruct v; try exact IH'. contradiction.
Qed.

Lemma null_check_missing_field_is_key_error_witness :
  null_check (PDict Sample.record_without_year)
    ([py "license_plate"; py "make_model"] ++ py "year" ::
     [py "registered_name"; py "registered_address"; py "registered_date"])
  = Raise (KeyError (py "year")).
Proof.
  apply null_check_missing_field_is_key_error.
  - intros x Hx. simpl in Hx.
    repeat (destruct Hx as [<- | Hx];
            [eexists; split; [reflexivity | discriminate]|]).
    contradiction.
  - reflexivity.
Defined.

(** X4: none of [check_schema], [null_check] and [transform_address] ever
    returns [False], on any row: each returns [True] or raises. *)
Theorem validators_return_true_or_raise
    (v : pyvalue) (required_fields : list pystr) :
  check_schema v required_fields <> Ok false /\
  null_check v required_fields <> Ok false /\
  fst (transform_address v) <> Ok false.
Proof.
  split; [|split].
  - induction required_fields as [|f fs IH]; simpl; [discriminate|].
    destruct (contains v f) as [[]|]; try discriminate. exact IH.
  - induction required_fields as [|f fs IH]; simpl; [discriminate|].
    destruct (subscript v f) as [[]|]; try discriminate; exact IH.
  - unfold transform_address.
    destruct v as [| | | | |?|d]; try discriminate.
    destruct (Dict.get _ d) as [[| | | |a| |]|]; try discriminate.
    destruct (Re.match_ address_regex a); discriminate.
Qed.

(** ** [transform_address] *)

Module AcceptFacts.

Lemma transform_address_ok_inv
    (v : pyvalue) (b : bool) (v' : pyvalue) :
  transform_address v = (Ok b, v') ->
  exists d street city state zip trailing,
    v = PDict d /\
    Dict.get (py "registered_address") d
      = Some (PStr (two_line street city state zip trailing)) /\
    address_parts street city state zip /\
    b = true /\
    v' = PDict (with_address_parts street city state zip d).
Proof.
  intros H.
  assert (Hd : exists d a, v = PDict d /\
               Dict.get (py "registered_address") d = Some (PStr a) /\
               Re.match_ address_regex a <> None).
  { unfold transform_address in H.
    destruct v as [| | | | |?|d]; try discriminate.
    destruct (Dict.get (py "registered_address") d) as [[| | | |a| |]|] eqn:Hget;
      try discriminate.
    exists d, a. split; [reflexivity|]. split; [exact Hget|].
    intros Hm. rewrite Hm in H. discriminate. }
  destruct Hd as (d & a & -> & Hget & Hm).
  rewrite AddressFacts.match_parse in Hm.
  destruct (parse_address a) as [[[[[street city] state] zip] trailing]|] eqn:E;
    [|contradiction].
  apply AddressFacts.parse_address_sound in E as [-> Hp].
  rewrite (RowFacts.transform_address_match d _ _ _ _ _ Hp Hget) in H.
  injection H as <- <-.
  exists d, street, city, state, zip, trailing. auto.
Qed.

End AcceptFacts.

(** X5: [transform_address] returns only on a record whose address is a
    string that begins with a two-line address; it then returns [True] and
    leaves the record with the four parts set and the address removed. *)
Theorem transform_address_accepts_only_two_line
    (v : pyvalue) (b : bool) (v' : pyvalue) :
  transform_address v = (Ok b, v') ->
  exists d street city state zip trailing,
    v = PDict d /\
    Dict.get (py "registered_address") d
      = Some (PStr (two_line street city state zip trailing)) /\
    address_parts street city state zip /\
    b = true /\
    v' = PDict (with_address_parts street city state zip d).
Proof. exact (AcceptFacts.transform_address_ok_inv v b v'). Qed.

Lemma transform_address_accepts_only_two_line_witness :
  exists d street city state zip trailing,
    PDict Sample.record = PDict d /\
    Dict.get (py "registered_address") d
      = Some (PStr (two_line street city state zip trailing)) /\
    address_parts street city state zip /\
    true = true /\
    snd (transform_address (PDict Sample.record))
    = PDict (with_address_parts street city state zip d).
Proof.
  apply (transform_address_accepts_only_two_line (PDict Sample.record) true).
  vm_compute. reflexivity.
Defined.

(** X6: [transform_address] cannot be applied twice: on the row a successful
    call leaves, a second call raises [KeyError] for [registered_address]
    and changes nothing. *)
Theorem transform_address_twice_is_key_error (v : pyvalue) (b : bool) :
  fst (transform_address v) = Ok b ->
  transform_address (snd (transform_address v))
  = (Raise (KeyError (py "registered_address")), snd (transform_address v)).
Proof.
  intros H. unfold transform_address in H |- * at 2 3.
  destruct v as [| | | | |?|d]; try discriminate.
  destruct (Dict.get (py "registered_address") d) as [[| | | |a| |]|];
    try discriminate.
  destruct (Re.match_ address_regex a) as [m|]; [|discriminate].
  cbv zeta. cbn [snd]. unfold transform_address.
  rewrite DictFacts.get_del_same. reflexivity.
Qed.

Lemma transform_address_twice_is_key_error_witness :
  transform_address (snd (transform_address (PDict Sample.record)))
  = (Raise (KeyError (py "registered_address")),
     snd (transform_address (PDict Sample.record))).
Proof.
  apply (transform_address_twice_is_key_error (PDict Sample.record) true).
  vm_compute. reflexivity.
Defined.

(** X7: a successful [transform_address] leaves every field other than
    [registered_address] and the four structured fields with the value it
    had. *)
Theorem transform_address_keeps_other_fields
    (d d' : pydict) (b : bool) (k : pystr) :
  transform_address (PDict d) = (Ok b, PDict d') ->
  ~ In k (py "registered_address" :: structured_keys) ->
  Dict.get k d' = Dict.get k d.
Proof.
  intros H Hk.
  destruct (AcceptFacts.transform_address_ok_inv _ _ _ H)
    as (d0 & street & city & state & zip & trailing & E & _ & _ & _ & E').
  injection E as <-. injection E' as ->.
  unfold with_address_parts.
  rewrite MoreDictFacts.get_del_neq, !MoreDictFacts.get_set_neq;
    try reflexivity;
    intros ->; apply Hk; simpl; auto 10.
Qed.

Lemma transform_address_keeps_other_fields_witness :
  Dict.get (py "year")
    (with_address_parts (py "123 Main St") (py "Springfield") (py "IL")
       (py "62704") Sample.record)
  = Dict.get (py "year") Sample.record.
Proof.
  apply (transform_address_keeps_other_fields Sample.record _ true).
  - vm_compute. reflexivity.
  - intros H. simpl in H.
    repeat (destruct H as [H | H]; [discriminate|]). contradiction.
Defined.

(** X8: on a record that has none of the four structured keys, a successful
    [transform_address] leaves the other fields in their order, without
    [registered_address], followed by [street_address], [city], [state] and
    [zip] in this order. *)
Theorem transform_address_appends_fields
    (d : pydict) (street city state zip trailing : pystr) :
  address_parts street city state zip ->
  Dict.get (py "registered_address") d
    = Some (PStr (two_line street city state zip trailing)) ->
  (forall k, In k structured_keys -> Dict.mem k d = false) ->
  snd (transform_address (PDict d))
  = PDict (Dict.del (py "registered_address") d
           ++ [(py "street_address", PStr street); (py "city", PStr city);
               (py "state", PStr state); (py "zip", PStr zip)]).
Proof.
  intros Hp Hget Hk.
  rewrite (RowFacts.transform_address_match d _ _ _ _ trailing Hp Hget).
  cbn [snd]. f_equal. unfold with_address_parts.
  rewrite (MoreDictFacts.set_absent (py "street_address")) by (apply Hk; simpl; auto).
  rewrite (MoreDictFacts.set_absent (py "city"))
    by (rewrite MoreDictFacts.mem_app_other by reflexivity; apply Hk; simpl; auto).
  rewrite (MoreDictFacts.set_absent (py "state"))
    by (rewrite !MoreDictFacts.mem_app_other by reflexivity; apply Hk; simpl; auto).
  rewrite (MoreDictFacts.set_absent (py "zip"))
    by (rewrite !MoreDictFacts.mem_app_other by reflexivity; apply Hk; simpl; auto).
  unfold Dict.del. rewrite !filter_app. cbn [filter fst]. 
  rewrite <- !app_assoc. reflexivity.
Qed.

Lemma transform_address_appends_fields_witness :
  snd (transform_address (PDict Sample.record))
  = PDict (Dict.del (py "registered_address") Sample.record
           ++ [(py "street_address", PStr (py "123 Main St"));
               (py "city", PStr (py "Springfield"));
               (py "state", PStr (py "IL")); (py "zip", PStr (py "62704"))]).
Proof.
  apply (transform_address_appends_fields Sample.record _ _ _ _ []).
  - exact sample_address_parts.
  - reflexivity.
  - intros k Hk. simpl in Hk.
    repeat (destruct Hk as [<- | Hk]; [reflexivity|]). contradiction.
Defined.

(** X9: an address whose city line runs into a character that is neither a
    letter, a digit, a space nor the comma (a period, a hyphen, an
    apostrophe) is an unknown format, whatever follows. *)
Theorem city_with_other_character_is_rejected
    (d : pydict) (street city : pystr) (c : char) (rest : pystr) :
  Dict.get (py "registered_address") d
    = Some (PStr (street ++ NL :: city ++ c :: rest)) ->
  forallb street_char street = true ->
  forallb city_char city = true ->
  city_char c = false ->
  c <> N_of_ascii "," ->
  transform_address (PDict d)
  = (Raise (ValueError
              (py "Unknown address format: "
               ++ replace_char NL (py ", ")
                    (strip (street ++ NL :: city ++ c :: rest)))),
     PDict d).
Proof.
  intros Hget Hs Hc Hcc Hcomma.
  apply (RowFacts.transform_address_no_match d _ Hget).
  rewrite AddressFacts.match_parse. unfold parse_address.
  rewrite AddressFacts.span_app; cycle 1.
  { rewrite <- Hs. apply AddressFacts.forallb_same. apply AddressFacts.in_street_set. }
  { reflexivity. }
  destruct street as [|x street]; [reflexivity|].
  cbn [char_eqb N.eqb NL Pos.eqb].
  rewrite AddressFacts.span_app; cycle 1.
  { rewrite <- Hc. apply AddressFacts.forallb_same. apply AddressFacts.in_city_set. }
  { rewrite AddressFacts.in_city_set. exact Hcc. }
  destruct city as [|y city]; [reflexivity|].
  destruct rest as [|c2 r4]; [reflexivity|].
  destruct (char_eqb c (N_of_ascii ",")) eqn:E; [|reflexivity].
  apply N.eqb_eq in E. contradiction.
Qed.

Lemma city_with_other_character_is_rejected_witness :
  transform_address
    (PDict (Sample.record_with
              (PStr (py "1 Main St" ++ NL :: py "St" ++ N_of_ascii "."
                     :: py " Louis, MO 63101"))))
  = (Raise (ValueError
              (py "Unknown address format: "
               ++ replace_char NL (py ", ")
                    (strip (py "1 Main St" ++ NL :: py "St" ++ N_of_ascii "."
                            :: py " Louis, MO 63101")))),
     PDict (Sample.record_with
              (PStr (py "1 Main St" ++ NL :: py "St" ++ N_of_ascii "."
                     :: py " Louis, MO 63101")))).
Proof.
  apply city_with_other_character_is_rejected.
  - reflexivity.
  - reflexivity.
  - reflexivity.
  - reflexivity.
  - discriminate.
Defined.

Module ConsoleFacts.

Section Console.

Variable json_loads : pystr -> result pyvalue.
Variable print_lines : bool.

Local Abbreviation attempt := (try_suite json_loads print_lines).
Local Abbreviation turn := (iteration json_loads print_lines).
Local Abbreviation loop := (for_lines json_loads print_lines).






Lemma iteration_valid st ln :
  valid_line json_loads ln ->
  exists v,
    turn st ln
    = (Ok tt,
       Frame (line_num st + 1) (ok_count st + 1) (reject_count st) (Some v)
             (if print_lines then stdout st ++ [ok_line (line_num st) v]
              else stdout st)).
Proof.
  intros (d & street & city & state & zip & trailing & Hd & Hall & Hget & Hp).
  exists (PDict (with_address_parts street city state zip d)).
  unfold iteration, try_suite. rewrite Hd.
  rewrite (RowFacts.all_present_check_schema d Hall).
  rewrite (RowFacts.all_present_null_check d Hall).
  rewrite (RowFacts.transform_address_match d _ _ _ _ trailing Hp Hget).
  destruct print_lines; reflexivity.
Qed.

End Console.

Lemma for_lines_valid json_loads lines : forall st,
  Forall (valid_line json_loads) lines ->
  exists r,
    for_lines json_loads false lines st
    = (Ok tt,
       Frame (line_num st + length lines) (ok_count st + length lines)
             (reject_count st) r (stdout st)).
Proof.
  induction lines as [|ln lines IH]; intros st Hall; simpl.
  - exists (row st). destruct st; simpl. rewrite !Nat.add_0_r. reflexivity.
  - inversion Hall as [|? ? H1 H2]; subst.
    destruct (iteration_valid json_loads false st ln H1) as (v & E).
    rewrite E. destruct (IH (Frame (line_num st + 1) (ok_count st + 1)
                                   (reject_count st) (Some v) (stdout st)) H2)
      as (r & E2).
    rewrite E2. exists r. simpl. do 2 f_equal; lia.
Qed.

End ConsoleFacts.








(** X14: on a file of valid lines only, read to its end, [run] without
    [print_lines] prints the two summary lines and nothing else, with all
    the lines accepted and none rejected. *)
Theorem file_of_valid_rows
    (json_loads : pystr -> result pyvalue)
    (open_ : pystr -> result text_file)
    (file_name : pystr) (lines : list pystr) :
  open_ file_name = Ok (TextFile lines None) ->
  Forall (valid_line json_loads) lines ->
  run json_loads open_ false file_name
  = (Ok tt, [read_line (length lines); tally_line (length lines) 0]).
Proof.
  intros Hopen Hall. unfold run. rewrite Hopen. cbn [file_lines read_error].
  destruct (ConsoleFacts.for_lines_valid json_loads lines initial Hall)
    as (r & E).
  rewrite E. unfold print. simpl. rewrite Nat.sub_0_r. reflexivity.
Qed.

Lemma sample_line_is_valid :
  valid_line (Sample.loads_const (PDict Sample.record)) [].
Proof.
  exists Sample.record, (py "123 Main St"), (py "Springfield"), (py "IL"),
    (py "62704"), [].
  split; [reflexivity|]. split; [exact sample_record_complete|].
  split; [reflexivity | exact sample_address_parts].
Qed.

Lemma file_of_valid_rows_witness :
  run (Sample.loads_const (PDict Sample.record)) (Sample.open_lines [[]; []])
      false []
  = (Ok tt, [read_line 2; tally_line 2 0]).
Proof.
  apply (file_of_valid_rows (Sample.loads_const (PDict Sample.record))
           (Sample.open_lines [[]; []]) [] [[]; []]).
  - reflexivity.
  - repeat constructor; exact sample_line_is_valid.
Defined.

Module PipelineFacts.

Lemma first_field_none_inv p fs :
  first_field p fs = None -> forall f, In f fs -> p f = false.
Proof.
  induction fs as [|x fs IH]; simpl; [intros _ f []|].
  destruct (p x) eqn:Hx; [discriminate|].
  intros H f [<- | Hf]; auto.
Qed.

Lemma checks_pass_inv d b1 b2 :
  check_schema (PDict d) VALID_FIELDS = Ok b1 ->
  null_check (PDict d) VALID_FIELDS = Ok b2 ->
  all_present_non_null d.
Proof.
  rewrite SchemaFacts.null_check_dict. intros _ H f Hf.
  destruct (first_field (null_or_absent d) VALID_FIELDS) as [x|] eqn:E.
  - destruct (Dict.get x d); discriminate.
  - pose proof (first_field_none_inv _ _ E f Hf) as Hn.
    unfold null_or_absent in Hn.
    destruct (Dict.get f d) as [v|]; [|discriminate].
    exists v. split; [reflexivity|]. intros ->. discriminate.
Qed.

End PipelineFacts.

(** X15: the [try] suite ends without an exception exactly on a line that
    decodes to a record with the six required fields, none of them null,
    and an address that begins with a two-line address. *)
Theorem line_is_accepted_iff_valid
    (json_loads : pystr -> result pyvalue) (print_lines : bool)
    (st : frame) (ln : pystr) :
  (exists st1, try_suite json_loads print_lines st ln = (Ok tt, st1)) <->
  valid_line json_loads ln.
Proof.
  split.
  - intros (st1 & H). unfold try_suite in H.
    destruct (json_loads (strip ln)) as [v|e] eqn:Hd; [|discriminate].
    destruct (check_schema v VALID_FIELDS) as [b1|] eqn:Hc; [|discriminate].
    destruct (null_check v VALID_FIELDS) as [b2|] eqn:Hn; [|discriminate].
    destruct (transform_address v) as [[b|e] v'] eqn:Ht; [|discriminate].
    destruct (AcceptFacts.transform_address_ok_inv _ _ _ Ht)
      as (d & street & city & state & zip & trailing & -> & Hget & Hp & _).
    exists d, street, city, state, zip, trailing.
    split; [exact Hd|]. split; [|auto].
    exact (PipelineFacts.checks_pass_inv d b1 b2 Hc Hn).
  - intros Hv.
    destruct (ConsoleFacts.iteration_valid json_loads print_lines st ln Hv)
      as (v & E).
    unfold iteration in E.
    destruct (try_suite json_loads print_lines st ln) as [[[]|e] st0] eqn:H;
      [eauto|].
    exfalso.
    destruct (RunFacts.try_suite_raise _ _ _ _ _ _ H) as (_ & _ & E3 & _).
    unfold except_suite in E. destruct (row st0); [|discriminate].
    injection E as _ E. simpl in E. lia.
Qed.



Lemma later_decode_error_prints_earlier_row_witness :
  iteration Sample.loads_fail false
    (Frame 2 1 0 (Some (PInt 7)) []) (py "not json")
  = (Ok tt,
     Frame (2 + 1) 1 (0 + 1) (Some (PInt 7))
           ([] ++ [error_line 2 Sample.decode_error (PInt 7)])).
Proof.
  apply (later_decode_error_prints_earlier_row Sample.loads_fail false
           (Frame 2 1 0 (Some (PInt 7)) []) (py "not json")
           Sample.decode_error (PInt 7)).
  - reflexivity.
  - reflexivity.
Defined.

Lemma check_schema_accepts_iff_all_keys_witness :
  check_schema (PDict Sample.record) VALID_FIELDS = Ok true.
Proof.
  apply (proj2 (check_schema_accepts_iff_all_keys Sample.record VALID_FIELDS)).
  intros f Hf. simpl in Hf.
  repeat (destruct Hf as [<- | Hf]; [reflexivity|]). contradiction.
Defined.

Lemma null_check_accepts_iff_no_null_witness :
  null_check (PDict Sample.record) VALID_FIELDS = Ok true.
Proof.
  apply (proj2 (null_check_accepts_iff_no_null Sample.record VALID_FIELDS)).
  exact sample_record_complete.
Defined.


Lemma line_is_accepted_iff_valid_witness :
  exists st1,
    try_suite (Sample.loads_const (PDict Sample.record)) false initial []
    = (Ok tt, st1).
Proof.
  apply (proj2 (line_is_accepted_iff_valid
                  (Sample.loads_const (PDict Sample.record)) false initial [])).
  exact sample_line_is_valid.
Defined.



